(** * SME block/bulk deal scanner: a shallow embedding of
    [sme_block_bulk_telegram.py] and the properties of its pipeline.

    Modelling conventions.
    - Python [str] values are Rocq strings read as ASCII text; [upper] and
      [strip] are [str.upper] and [str.strip] on ASCII code points.
    - Values decoded by [json.loads] are the inductive [json]; a JSON object is
      an association list read by first match, [dict.get] of a missing key
      is [JNull] (Python [None]).
    - Python [int] is [Z]; a [datetime.date] is its proleptic Gregorian
      ordinal, as [date.toordinal] gives it.
    - Exceptions are values of [exn]; code that may raise returns [result].
    - Network and console effects are threaded through the state monad [M]
      over [world]; the answer of the outside world to a request is a
      function of the requests sent before it. *)

From Stdlib Require Import ZArith Strings.String Strings.Ascii Floats.SpecFloat
  Numbers.DecimalString.
From stdpp Require Import base decidable option list strings gmap.

Local Open Scope Z_scope.

(** ** Strings *)

Module Str.

(** [str.isspace] on one ASCII code point: TAB..CR, FS..US and SPACE. *)
Definition isspace (c : ascii) : bool :=
  let n := N_of_ascii c in
  ((9 <=? n) && (n <=? 13) || (28 <=? n) && (n <=? 32))%N.

Definition upper_char (c : ascii) : ascii :=
  let n := N_of_ascii c in
  if ((97 <=? n) && (n <=? 122))%N then ascii_of_N (n - 32) else c.

(** [s.upper()] *)
Fixpoint upper (s : string) : string :=
  match s with
  | EmptyString => EmptyString
  | String c s' => String (upper_char c) (upper s')
  end.

Fixpoint lstrip (s : string) : string :=
  match s with
  | EmptyString => EmptyString
  | String c s' => if isspace c then lstrip s' else s
  end.

Fixpoint rstrip (s : string) : string :=
  match s with
  | EmptyString => EmptyString
  | String c s' =>
      match rstrip s' with
      | EmptyString => if isspace c then EmptyString else String c EmptyString
      | r => String c r
      end
  end.

(** [s.strip()] *)
Definition strip (s : string) : string := rstrip (lstrip s).

(** [sep.join(parts)] *)
Fixpoint join (sep : string) (parts : list string) : string :=
  match parts with
  | [] => ""
  | [p] => p
  | p :: ps => p +:+ sep +:+ join sep ps
  end.

(** [str(n)] for an [int]. *)
Definition of_Z (n : Z) : string := NilZero.string_of_int (Z.to_int n).

(** ["%02d" % n] and ["%04d" % n] for [0 <= n]. *)
Definition pad2 (n : Z) : string :=
  if n <? 10 then "0" +:+ of_Z n else of_Z n.

Definition pad4 (n : Z) : string :=
  if n <? 10 then "000" +:+ of_Z n
  else if n <? 100 then "00" +:+ of_Z n
  else if n <? 1000 then "0" +:+ of_Z n
  else of_Z n.

(** Every character of [s] is whitespace. *)
Fixpoint all_space (s : string) : bool :=
  match s with
  | EmptyString => true
  | String c s' => isspace c && all_space s'
  end.

(** No character of [s] is whitespace. *)
Fixpoint no_space (s : string) : bool :=
  match s with
  | EmptyString => true
  | String c s' => negb (isspace c) && no_space s'
  end.

Definition nl : string := String (ascii_of_N 10) EmptyString.

End Str.

(** ** Exceptions and results *)

Record exn := Exn { exn_class : string; exn_msg : string }.

(** [str(exc)] *)
Definition exn_str (e : exn) : string := exn_msg e.

Inductive result (A : Type) : Type :=
| Ok (a : A)
| Raise (e : exn).
Arguments Ok {A} a.
Arguments Raise {A} e.

Definition raised {A} (r : result A) : Prop := ∃ e, r = Raise e.

(** ** JSON values *)

#[warnings="-register-all"]
Inductive json : Type :=
| JNull
| JBool (b : bool)
| JInt (n : Z)
| JFloat (f : spec_float)
| JStr (s : string)
| JList (l : list json)
| JDict (d : list (string * json)).

Definition pydict := list (string * json).

(** Python truthiness, as [x or y] tests it. *)
Definition truthy (v : json) : bool :=
  match v with
  | JNull => false
  | JBool b => b
  | JInt n => negb (n =? 0)
  | JFloat f => match f with S754_zero _ => false | _ => true end
  | JStr s => negb (String.eqb s "")
  | JList l => match l with [] => false | _ => true end
  | JDict d => match d with [] => false | _ => true end
  end.

(** [x or y] *)
Definition py_or (x y : json) : json := if truthy x then x else y.
Infix "|||" := py_or (at level 50, left associativity).

Fixpoint assoc (d : pydict) (k : string) : option json :=
  match d with
  | [] => None
  | (k', v) :: d' => if String.eqb k' k then Some v else assoc d' k
  end.

(** [d.get(k)] on a [dict]. *)
Definition get (d : pydict) (k : string) : json := default JNull (assoc d k).

Definition type_name (v : json) : string :=
  match v with
  | JNull => "NoneType"
  | JBool _ => "bool"
  | JInt _ => "int"
  | JFloat _ => "float"
  | JStr _ => "str"
  | JList _ => "list"
  | JDict _ => "dict"
  end.

(** What [v.get(...)] raises when [v] is not a [dict]. *)
Definition no_get (v : json) : exn :=
  Exn "AttributeError"
      ("'" +:+ type_name v +:+ "' object has no attribute 'get'").

(** ** The record *)

Record DealRow := mkDealRow {
  exchange : string;
  deal_type : string;
  symbol : string;
  date : string;
  quantity : string;
  price : string;
  buyer : string;
  seller : string
}.

Global Instance DealRow_eq_dec : EqDecision DealRow.
Proof. solve_decision. Defined.

Section Normalizer.

(** [repr] of a decoded value that is not a [str]: the text [str()] gives
    for numbers, booleans, lists and dicts. *)
Variable py_repr : json → string.

(** [str(v)] *)
Definition py_str (v : json) : string :=
  match v with
  | JStr s => s
  | _ => py_repr v
  end.

Definition nse_row (exch dtype : string) (item : pydict) : DealRow :=
  {| exchange := exch;
     deal_type := dtype;
     symbol := Str.strip (py_str (get item "symbol" ||| get item "scripName" ||| get item "Security" ||| JStr ""));
     date := Str.strip (py_str (get item "date" ||| get item "dt" ||| get item "DealDate" ||| JStr ""));
     quantity := Str.strip (py_str (get item "quantityTraded" ||| get item "qty" ||| get item "Quantity" ||| JStr ""));
     price := Str.strip (py_str (get item "pricePerShare" ||| get item "price" ||| get item "Price" ||| JStr ""));
     buyer := Str.strip (py_str (get item "clientName" ||| get item "buyerName" ||| get item "Buyer" ||| JStr ""));
     seller := Str.strip (py_str (get item "sellerName" ||| get item "Seller" ||| JStr "")) |}.

(** The [for item in data] loop of [parse_json_rows]. *)
Fixpoint parse_items (exch dtype : string) (data : list json) (rows : list DealRow)
  : list DealRow :=
  match data with
  | [] => rows
  | JDict item :: rest => parse_items exch dtype rest (rows ++ [nse_row exch dtype item])
  | _ :: rest => parse_items exch dtype rest rows
  end.

Definition parse_json_rows (payload : json) (exch dtype : string)
  : result (list DealRow) :=
  match payload with
  | JDict p =>
      match get p "data" with
      | JList data => Ok (parse_items exch dtype data [])
      | _ => Ok []
      end
  | _ => Raise (no_get payload)
  end.

End Normalizer.

(** ** Filtering *)

(** The comprehension [[r for r in rows if r.symbol.upper() in symbols]]. *)
Fixpoint keep_listed (rows : list DealRow) (symbols : gset string) : list DealRow :=
  match rows with
  | [] => []
  | r :: rest =>
      if bool_decide (Str.upper (symbol r) ∈ symbols)
      then r :: keep_listed rest symbols
      else keep_listed rest symbols
  end.

Definition filter_sme (rows : list DealRow) (symbols : gset string) : list DealRow :=
  if bool_decide (symbols = ∅) then rows else keep_listed rows symbols.

(** ** Formatting *)

(** [l[:k]] for a Python [int] [k]: a negative [k] counts from the end. *)
Definition slice_to {A} (l : list A) (k : Z) : list A :=
  if 0 <=? k then take (Z.to_nat k) l
  else take (Z.to_nat (Z.of_nat (length l) + k)) l.

Definition row_line (r : DealRow) : string :=
  "- " +:+ date r +:+ " | " +:+ deal_type r +:+ " | " +:+ symbol r
       +:+ " | Qty: " +:+ quantity r +:+ " | Px: " +:+ price r.

Definition more_line (n : Z) : string := "- ... and " +:+ Str.of_Z n +:+ " more".

Definition format_lines (title : string) (rows : list DealRow) (max_rows : Z)
  : list string :=
  let lines := [title] in
  let lines := lines ++ map row_line (slice_to rows max_rows) in
  if Z.of_nat (length rows) >? max_rows
  then lines ++ [more_line (Z.of_nat (length rows) - max_rows)]
  else lines.

Definition format_rows (title : string) (rows : list DealRow) (max_rows : Z) : string :=
  match rows with
  | [] => title +:+ Str.nl +:+ "- No SME deals found"
  | _ => Str.join Str.nl (format_lines title rows max_rows)
  end.

(** ** Dates *)

Definition pydate := Z.

Definition MAXORDINAL : Z := 3652059.

Definition days_before_month (month : Z) : Z :=
  nth (Z.to_nat month) [-1; 0; 31; 59; 90; 120; 151; 181; 212; 243; 273; 304; 334] 0.

Definition days_in_month (month : Z) : Z :=
  nth (Z.to_nat month) [-1; 31; 28; 31; 30; 31; 30; 31; 31; 30; 31; 30; 31] 0.

(** [datetime._ord2ymd]: ordinal to (year, month, day), 0001-01-01 being day 1. *)
Definition ord2ymd (n : Z) : Z * Z * Z :=
  let n := n - 1 in
  let n400 := n / 146097 in
  let n := n mod 146097 in
  let year := n400 * 400 + 1 in
  let n100 := n / 36524 in
  let n := n mod 36524 in
  let n4 := n / 1461 in
  let n := n mod 1461 in
  let n1 := n / 365 in
  let n := n mod 365 in
  let year := year + (n100 * 100 + n4 * 4 + n1) in
  if (n1 =? 4) || (n100 =? 4) then (year - 1, 12, 31)
  else
    let leapyear := (n1 =? 3) && (negb (n4 =? 24) || (n100 =? 3)) in
    let month := Z.shiftr (n + 50) 5 in
    let preceding :=
      days_before_month month + (if (month >? 2) && leapyear then 1 else 0) in
    let '(month, preceding) :=
      if preceding >? n
      then (month - 1,
            preceding - (days_in_month (month - 1)
                         + (if (month - 1 =? 2) && leapyear then 1 else 0)))
      else (month, preceding) in
    (year, month, n - preceding + 1).

(** [d.isoformat()] *)
Definition isoformat (d : pydate) : string :=
  let '(y, m, dd) := ord2ymd d in
  Str.pad4 y +:+ "-" +:+ Str.pad2 m +:+ "-" +:+ Str.pad2 dd.

(** [d.strftime("%d-%m-%Y")]; the year is printed with four digits, as for
    every year from 1000 on. *)
Definition strftime_dmY (d : pydate) : string :=
  let '(y, m, dd) := ord2ymd d in
  Str.pad2 dd +:+ "-" +:+ Str.pad2 m +:+ "-" +:+ Str.pad4 y.

(** [d.strftime("%Y%m%d")] *)
Definition strftime_Ymd (d : pydate) : string :=
  let '(y, m, dd) := ord2ymd d in
  Str.pad4 y +:+ Str.pad2 m +:+ Str.pad2 dd.

(** [dt.timedelta(days=n)] *)
Definition timedelta (days : Z) : result Z :=
  if Z.abs days <=? 999999999 then Ok days
  else Raise (Exn "OverflowError"
                  ("days=" +:+ Str.of_Z days +:+ "; must have magnitude <= 999999999")).

(** [d + delta] on a date, [delta] in days. *)
Definition date_add (d : pydate) (delta : Z) : result pydate :=
  let o := d + delta in
  if (0 <? o) && (o <=? MAXORDINAL) then Ok o
  else Raise (Exn "OverflowError" "date value out of range").

(** ** Configuration *)

Definition is_digit (c : ascii) : option Z :=
  let n := N_of_ascii c in
  if ((48 <=? n) && (n <=? 57))%N then Some (Z.of_N n - 48) else None.

(** The digits of an [int] literal: single underscores may separate digits. *)
Fixpoint int_digits (s : string) (acc : Z) (after_digit : bool) : option Z :=
  match s with
  | EmptyString => if after_digit then Some acc else None
  | String c s' =>
      match is_digit c with
      | Some d => int_digits s' (10 * acc + d) true
      | None =>
          if Ascii.eqb c "_" && after_digit then int_digits s' acc false else None
      end
  end.

(** [int(s)] for a [str] in base 10. *)
Definition py_int (s : string) : result Z :=
  let bad := Raise (Exn "ValueError"
                        ("invalid literal for int() with base 10: '" +:+ s +:+ "'")) in
  match Str.strip s with
  | String "+" t => from_option Ok bad (int_digits t 0 false)
  | String "-" t => from_option (λ n, Ok (- n)) bad (int_digits t 0 false)
  | t => from_option Ok bad (int_digits t 0 false)
  end.

(** [os.getenv(name, dflt)] *)
Definition getenv (environ : gmap string string) (name dflt : string) : string :=
  default dflt (environ !! name).

(** ** The outside world *)

Record request := Request {
  rq_url : string;
  rq_headers : list (string * string);
  rq_data : option string;      (* form body of a POST *)
  rq_opener : bool              (* sent through the NSE cookie opener *)
}.

Inductive stream := Stdout | Stderr.

Record world := World {
  sent : list request;
  printed : list (stream * string)
}.

Definition world0 : world := World [] [].

(** State and exception monad of the program. *)
Definition M (A : Type) : Type := world → world * result A.

Definition ret {A} (a : A) : M A := λ w, (w, Ok a).

Definition bind {A B} (m : M A) (k : A → M B) : M B :=
  λ w, match m w with
       | (w', Ok a) => k a w'
       | (w', Raise e) => (w', Raise e)
       end.

Definition lift {A} (r : result A) : M A := λ w, (w, r).

(** [try: m  except Exception as exc: h exc] *)
Definition try_except {A} (m : M A) (h : exn → M A) : M A :=
  λ w, match m w with
       | (w', Ok a) => (w', Ok a)
       | (w', Raise e) => h e w'
       end.

Definition print (f : stream) (text : string) : M unit :=
  λ w, (World (sent w) (printed w ++ [(f, text)]), Ok tt).

Declare Scope M_scope.
Delimit Scope M_scope with M.
Notation "x <- m ;; k" := (bind m (λ x, k))
  (at level 100, m at next level, right associativity) : M_scope.
Notation "m >> k" := (bind m (λ _, k))
  (at level 100, right associativity) : M_scope.
Local Open Scope M_scope.

Definition USER_AGENT : string :=
  "Mozilla/5.0 (X11; Linux x86_64) AppleWebKit/537.36 " +:+
  "(KHTML, like Gecko) Chrome/131.0.0.0 Safari/537.36".

(** The key of the de-duplicating dict of [fetch_nse_deals]. *)
Definition row_key (r : DealRow)
  : string * string * string * string * string * string * string * string :=
  (exchange r, deal_type r, symbol r, date r, quantity r, price r, buyer r, seller r).

(** [d[k] = v] on an insertion-ordered dict: a present key keeps its place. *)
Fixpoint dict_set {K V} `{EqDecision K} (d : list (K * V)) (k : K) (v : V)
  : list (K * V) :=
  match d with
  | [] => [(k, v)]
  | (k', v') :: d' =>
      if decide (k' = k) then (k', v) :: d' else (k', v') :: dict_set d' k v
  end.

(** [list({row_key(r): r for r in rows}.values())] *)
Definition dedup_rows (rows : list DealRow) : list DealRow :=
  (foldl (λ uniq r, dict_set uniq (row_key r) r) [] rows).*2.

(** [x or y] for the optional text of a CSV cell. *)
Definition cell_or (x y : option string) : option string :=
  match x with
  | Some (String _ _) => x
  | _ => y
  end.

Section Program.

(** The response to a request, given the requests sent before it: the
    decoded body, or the error the HTTP call raises. *)
Variable net : list request → request → result string.
(** [json.loads] *)
Variable json_loads : string → result json.
(** [csv.DictReader(io.StringIO(text))], read to the end. *)
Variable csv_DictReader : string → result (list (gmap string string)).
(** [urllib.parse.urlencode] *)
Variable urlencode : list (string * string) → string.
Variable py_repr : json → string.
(** [_today()] *)
Variable today : pydate.
(** [os.environ] *)
Variable environ : gmap string string.

Definition urlopen (rq : request) : M string :=
  λ w, (World (sent w ++ [rq]) (printed w), net (sent w) rq).

Definition _http_get_text (url : string) (headers : list (string * string))
    (opener : bool) : M string :=
  urlopen (Request url headers None opener).

(** Returns once the warm-up request is answered; the opener itself is the
    flag [rq_opener] of later requests. *)
Definition build_nse_opener : M bool :=
  urlopen (Request "https://www.nseindia.com" [] None true) >>
  ret true.

(** The loop body of [fetch_nse_sme_symbols]. *)
Definition nse_symbol_step (out : gset string) (row : gmap string string)
  : gset string :=
  let series :=
    Str.upper (Str.strip
      (default "" (cell_or (cell_or (row !! " SERIES") (row !! "SERIES")) (Some "")))) in
  if bool_decide (series ∈ ({["SM"; "ST"]} : gset string)) then
    let sym := Str.upper (Str.strip (default "" (cell_or (row !! "SYMBOL") (Some "")))) in
    if bool_decide (sym = "") then out else out ∪ {[sym]}
  else out.

Definition fetch_nse_sme_symbols (opener : bool) : M (gset string) :=
  text <- _http_get_text
           "https://nsearchives.nseindia.com/content/equities/EQUITY_L.csv"
           [("User-Agent", USER_AGENT)] opener ;;
  rows <- lift (csv_DictReader text) ;;
  ret (foldl nse_symbol_step ∅ rows).

(** [try: body = _http_get_text(...); payload = json.loads(body)
     except Exception: continue]: [None] stands for [continue]. *)
Definition try_payload (url : string) (headers : list (string * string))
    (opener : bool) : M (option json) :=
  try_except
    (body <- _http_get_text url headers opener ;;
     payload <- lift (json_loads body) ;;
     ret (Some payload))
    (λ _, ret None).

Fixpoint nse_candidates_loop (opener : bool) (candidates : list (string * string))
    (rows : list DealRow) : M (list DealRow) :=
  match candidates with
  | [] => ret rows
  | (dtype, url) :: rest =>
      p <- try_payload url [] opener ;;
      match p with
      | None => nse_candidates_loop opener rest rows
      | Some payload =>
          more <- lift (parse_json_rows py_repr payload "NSE" (Str.upper dtype)) ;;
          nse_candidates_loop opener rest (rows ++ more)
      end
  end.

Definition nse_candidates (from_date to_date : pydate) : list (string * string) :=
  let fm := strftime_dmY from_date in
  let to := strftime_dmY to_date in
  [ ("bulk", "https://www.nseindia.com/api/historicalOR/bulk-deals?from=" +:+ fm +:+ "&to=" +:+ to);
    ("block", "https://www.nseindia.com/api/historicalOR/block-deals?from=" +:+ fm +:+ "&to=" +:+ to);
    ("bulk", "https://www.nseindia.com/api/historicalOR/bulk-block-short-deals?optionType=bulk_deals&from=" +:+ fm +:+ "&to=" +:+ to);
    ("block", "https://www.nseindia.com/api/historicalOR/bulk-block-short-deals?optionType=block_deals&from=" +:+ fm +:+ "&to=" +:+ to) ].

Definition fetch_nse_deals (opener : bool) (from_date to_date : pydate)
  : M (list DealRow) :=
  rows <- nse_candidates_loop opener (nse_candidates from_date to_date) [] ;;
  ret (dedup_rows rows).

Definition BSE_HEADERS : list (string * string) :=
  [("User-Agent", USER_AGENT); ("Referer", "https://www.bseindia.com/")].

(** [for row in vals] of [fetch_bse_sme_symbols]. *)
Definition bse_symbol_step (out : gset string) (row : json) : gset string :=
  match row with
  | JDict r =>
      let sym := Str.upper (Str.strip (py_str py_repr
                   (get r "SecurityId" ||| get r "scrip_cd" ||| get r "symbol" ||| JStr ""))) in
      if bool_decide (sym = "") then out else out ∪ {[sym]}
  | _ => out
  end.

(** [for key in ("Table", "Data", "table")] *)
Fixpoint bse_symbol_keys (payload : json) (keys : list string) (out : gset string)
  : result (gset string) :=
  match keys with
  | [] => Ok out
  | key :: rest =>
      match payload with
      | JDict p =>
          match get p key with
          | JList vals => bse_symbol_keys payload rest (foldl bse_symbol_step out vals)
          | _ => bse_symbol_keys payload rest out
          end
      | _ => Raise (no_get payload)
      end
  end.

(** [for url in urls] *)
Fixpoint bse_symbol_urls (urls : list string) (out : gset string) : M (gset string) :=
  match urls with
  | [] => ret out
  | url :: rest =>
      p <- try_payload url BSE_HEADERS false ;;
      match p with
      | None => bse_symbol_urls rest out
      | Some payload =>
          out <- lift (bse_symbol_keys payload ["Table"; "Data"; "table"] out) ;;
          if bool_decide (out = ∅) then bse_symbol_urls rest out else ret out
      end
  end.

Definition BSE_SME_URLS : list string :=
  [ "https://api.bseindia.com/BseIndiaAPI/api/ListofScripData/w?group=&Scripcode=&industry=&segment=SME";
    "https://api.bseindia.com/BseIndiaAPI/api/ListofScripData/w?Group=&Scripcode=&industry=&segment=SME" ].

Definition fetch_bse_sme_symbols : M (gset string) :=
  bse_symbol_urls BSE_SME_URLS ∅.

Definition bse_row (dtype : string) (as_on : pydate) (item : pydict) : DealRow :=
  {| exchange := "BSE";
     deal_type := Str.upper dtype;
     symbol := Str.strip (py_str py_repr (get item "Security" ||| get item "scripname" ||| get item "ScripName" ||| JStr ""));
     date := Str.strip (py_str py_repr (get item "Date" ||| get item "DealDate" ||| JStr (isoformat as_on)));
     quantity := Str.strip (py_str py_repr (get item "Qty" ||| get item "Quantity" ||| JStr ""));
     price := Str.strip (py_str py_repr (get item "Price" ||| get item "DealPrice" ||| JStr ""));
     buyer := Str.strip (py_str py_repr (get item "BuyerName" ||| get item "ClientName" ||| JStr ""));
     seller := Str.strip (py_str py_repr (get item "SellerName" ||| JStr "")) |}.

(** [for item in table] of [fetch_bse_deals]. *)
Fixpoint bse_items (dtype : string) (as_on : pydate) (table : list json)
    (rows : list DealRow) : list DealRow :=
  match table with
  | [] => rows
  | JDict item :: rest => bse_items dtype as_on rest (rows ++ [bse_row dtype as_on item])
  | _ :: rest => bse_items dtype as_on rest rows
  end.

Fixpoint bse_candidates_loop (as_on : pydate) (candidates : list (string * string))
    (rows : list DealRow) : M (list DealRow) :=
  match candidates with
  | [] => ret rows
  | (dtype, url) :: rest =>
      p <- try_payload url BSE_HEADERS false ;;
      match p with
      | None => bse_candidates_loop as_on rest rows
      | Some (JDict payload) =>
          match get payload "Table" ||| get payload "Data" ||| JList [] with
          | JList table =>
              bse_candidates_loop as_on rest (bse_items dtype as_on table rows)
          | _ => bse_candidates_loop as_on rest rows
          end
      | Some payload => lift (Raise (no_get payload))
      end
  end.

Definition bse_candidates (as_on : pydate) : list (string * string) :=
  let ymd := strftime_Ymd as_on in
  [ ("bulk", "https://api.bseindia.com/BseIndiaAPI/api/MktWatchBulkDealData/w?strType=B&strDate=" +:+ ymd);
    ("block", "https://api.bseindia.com/BseIndiaAPI/api/MktWatchBulkDealData/w?strType=BL&strDate=" +:+ ymd) ].

Definition fetch_bse_deals (as_on : pydate) : M (list DealRow) :=
  bse_candidates_loop as_on (bse_candidates as_on) [].

Definition telegram_request (token chat_id text : string) : request :=
  Request ("https://api.telegram.org/bot" +:+ token +:+ "/sendMessage")
          [("Content-Type", "application/x-www-form-urlencoded")]
          (Some (urlencode [("chat_id", chat_id); ("text", text)]))
          false.

Definition telegram_error (payload : json) : exn :=
  Exn "RuntimeError" ("Telegram API error: " +:+ py_str py_repr payload).

Definition send_telegram_message (token chat_id text : string) : M unit :=
  body <- urlopen (telegram_request token chat_id text) ;;
  payload <- lift (json_loads body) ;;
  match payload with
  | JDict p =>
      if negb (truthy (get p "ok")) then lift (Raise (telegram_error payload))
      else ret tt
  | _ => lift (Raise (no_get payload))
  end.

(** The [while cursor <= to_date] loop of [main]; [n] bounds the number of
    iterations, and [bse_days_fuel] shows the bound [main] passes is never
    reached before the loop condition fails. *)
Fixpoint bse_days (n : nat) (cursor to_date : pydate) (all_rows : list DealRow)
  : M (list DealRow) :=
  match n with
  | O => ret all_rows
  | S n' =>
      if cursor <=? to_date then
        rows <- fetch_bse_deals cursor ;;
        cursor <- lift (date_add cursor 1) ;;
        bse_days n' cursor to_date (all_rows ++ rows)
      else ret all_rows
  end.

(** The body of the [try] of the NSE section of [main]. *)
Definition nse_block (from_date to_date : pydate) : M (list DealRow) :=
  nse_opener <- build_nse_opener ;;
  nse_sme <- fetch_nse_sme_symbols nse_opener ;;
  deals <- fetch_nse_deals nse_opener from_date to_date ;;
  ret (filter_sme deals nse_sme).

(** The body of the [try] of the BSE section of [main]. *)
Definition bse_block (from_date to_date : pydate) : M (list DealRow) :=
  bse_sme <- fetch_bse_sme_symbols ;;
  all_rows <- bse_days (Z.to_nat (to_date - from_date + 1)) from_date to_date [] ;;
  ret (filter_sme all_rows bse_sme).

(** [try: rows = block  except Exception as exc: notes.append(...)] *)
Definition guarded (name : string) (block : M (list DealRow)) (notes : list string)
  : M (list DealRow * list string) :=
  try_except
    (rows <- block ;; ret (rows, notes))
    (λ exc, ret ([], notes ++ [name +:+ " fetch warning: " +:+ exn_str exc])).

Definition message_parts (from_date to_date : pydate)
    (nse_rows bse_rows : list DealRow) (notes : list string) (max_rows : Z)
  : list string :=
  let header := "SME block/bulk scan (" +:+ isoformat from_date +:+ " to "
                  +:+ isoformat to_date +:+ ")" in
  let parts := [header; ""; format_rows "NSE" nse_rows max_rows; "";
                format_rows "BSE" bse_rows max_rows] in
  match notes with
  | [] => parts
  | _ => parts ++ (["";  "Warnings:"] ++ map (λ n, "- " +:+ n) notes)
  end.

Definition main : M Z :=
  let token := Str.strip (getenv environ "TELEGRAM_BOT_TOKEN" "") in
  let chat_id := Str.strip (getenv environ "TELEGRAM_CHAT_ID" "") in
  if bool_decide (token = "") || bool_decide (chat_id = "") then
    print Stderr "Set TELEGRAM_BOT_TOKEN and TELEGRAM_CHAT_ID first." >>
    ret 2
  else
    lookback_days <- lift (py_int (getenv environ "LOOKBACK_DAYS" "1")) ;;
    max_rows <- lift (py_int (getenv environ "MAX_ROWS_PER_SECTION" "20")) ;;
    let to_date := today in
    delta <- lift (timedelta (Z.max lookback_days 1 - 1)) ;;
    from_date <- lift (date_add to_date (- delta)) ;;
    r1 <- guarded "NSE" (nse_block from_date to_date) [] ;;
    r2 <- guarded "BSE" (bse_block from_date to_date) r1.2 ;;
    let message :=
      Str.join Str.nl (message_parts from_date to_date r1.1 r2.1 r2.2 max_rows) in
    send_telegram_message token chat_id message >>
    print Stdout "Telegram update sent successfully." >>
    ret 0.

End Program.

(** [raise SystemExit(main())]: how the process ends. *)
Inductive outcome :=
| Exit (code : Z)
| Uncaught (e : exn).

Definition script (net : list request → request → result string)
    (json_loads : string → result json)
    (csv_DictReader : string → result (list (gmap string string)))
    (urlencode : list (string * string) → string) (py_repr : json → string)
    (today : pydate) (environ : gmap string string) : world * outcome :=
  let '(w, r) := main net json_loads csv_DictReader urlencode py_repr today environ world0 in
  (w, match r with Ok code => Exit code | Raise e => Uncaught e end).

(** ** Fields and their candidate keys *)

Inductive field := FSymbol | FDate | FQuantity | FPrice | FBuyer | FSeller.

Definition field_of (f : field) (r : DealRow) : string :=
  match f with
  | FSymbol => symbol r
  | FDate => date r
  | FQuantity => quantity r
  | FPrice => price r
  | FBuyer => buyer r
  | FSeller => seller r
  end.

(** The keys [parse_json_rows] tries for each field, in order. *)
Definition nse_keys (f : field) : list string :=
  match f with
  | FSymbol => ["symbol"; "scripName"; "Security"]
  | FDate => ["date"; "dt"; "DealDate"]
  | FQuantity => ["quantityTraded"; "qty"; "Quantity"]
  | FPrice => ["pricePerShare"; "price"; "Price"]
  | FBuyer => ["clientName"; "buyerName"; "Buyer"]
  | FSeller => ["sellerName"; "Seller"]
  end.

(** The keys [fetch_bse_deals] tries for each field, in order. *)
Definition bse_keys (f : field) : list string :=
  match f with
  | FSymbol => ["Security"; "scripname"; "ScripName"]
  | FDate => ["Date"; "DealDate"]
  | FQuantity => ["Qty"; "Quantity"]
  | FPrice => ["Price"; "DealPrice"]
  | FBuyer => ["BuyerName"; "ClientName"]
  | FSeller => ["SellerName"]
  end.

(** The payload has none of the keys. *)
Definition lacks (item : pydict) (keys : list string) : Prop :=
  Forall (λ k, assoc item k = None) keys.

(** The rows [parse_json_rows] and [fetch_bse_deals] build from a list of
    entries: one per entry that is a [dict], in order. *)
Definition dict_rows (build : pydict → DealRow) (entries : list json) : list DealRow :=
  omap (λ v, match v with JDict item => Some (build item) | _ => None end) entries.

(** The dict of [fetch_nse_deals] after the distinct records [acc] were
    stored in it. *)
Definition keyed (acc : list DealRow) := map (λ r, (row_key r, r)) acc.

(** De-duplication in the words of the specification: of records equal in
    all eight fields only the first is kept, the others keep their order. *)
Fixpoint first_seen (rows : list DealRow) : list DealRow :=
  match rows with
  | [] => []
  | r :: rest => r :: filter (λ x, x ≠ r) (first_seen rest)
  end.

(** What the messaging API did with a call: the HTTP call could not be
    completed, or it answered with a JSON object, which carries the success
    flag under "ok". *)
Inductive api_reply :=
| CallFailed (e : exn)
| Payload (p : pydict).

Definition api_reply_of (json_loads : string → result json) (r : result string)
  : option api_reply :=
  match r with
  | Raise e => Some (CallFailed e)
  | Ok body =>
      match json_loads body with
      | Ok (JDict p) => Some (Payload p)
      | _ => None
      end
  end.

(** The success flag of a payload is false, as [not payload.get("ok")] reads it. *)
Definition flag_false (p : pydict) : Prop := truthy (get p "ok") = false.

(** The optional settings as [main] reads them, after the credentials: the
    row limit and the first day of the scan, or the error that ends the run. *)
Definition settings (environ : gmap string string) (today : pydate)
  : result (Z * pydate) :=
  match py_int (getenv environ "LOOKBACK_DAYS" "1") with
  | Raise e => Raise e
  | Ok lookback_days =>
      match py_int (getenv environ "MAX_ROWS_PER_SECTION" "20") with
      | Raise e => Raise e
      | Ok max_rows =>
          match timedelta (Z.max lookback_days 1 - 1) with
          | Raise e => Raise e
          | Ok delta =>
              match date_add today (- delta) with
              | Raise e => Raise e
              | Ok from_date => Ok (max_rows, from_date)
              end
          end
      end
  end.

(** The line [main] notes for an exchange whose section raised [e]. *)
Definition warning (name : string) (e : exn) : string :=
  name +:+ " fetch warning: " +:+ exn_str e.

(** How one guarded section of [main] ends: with the rows of the block and
    the notes as they were, or, when the block raised, with no rows and one
    more note. *)
Definition caught (name : string) (block : M (list DealRow)) (w w' : world)
    (rows : list DealRow) (notes notes' : list string) : Prop :=
  (block w = (w', Ok rows) ∧ notes' = notes)
  ∨ (∃ e, block w = (w', Raise e) ∧ rows = [] ∧ notes' = notes ++ [warning name e]).

(** A source that cannot be reached or whose body [json.loads] rejects,
    whenever it is asked. *)
Definition unavailable (net : list request → request → result string)
    (json_loads : string → result json) (rq : request) : Prop :=
  ∀ h, match net h rq with
       | Raise _ => True
       | Ok body => raised (json_loads body)
       end.

Definition NO_CREDENTIALS : string := "Set TELEGRAM_BOT_TOKEN and TELEGRAM_CHAT_ID first.".

Definition SENT_OK : string := "Telegram update sent successfully.".

(** The requests of the NSE section before the deal queries. *)
Definition warm_up_request : request := Request "https://www.nseindia.com" [] None true.

Definition nse_listing_request (opener : bool) : request :=
  Request "https://nsearchives.nseindia.com/content/equities/EQUITY_L.csv"
          [("User-Agent", USER_AGENT)] None opener.

(** The requests of [fetch_bse_sme_symbols]. *)
Definition bse_listing_requests : list request :=
  map (λ url, Request url BSE_HEADERS None false) BSE_SME_URLS.

(** A run that ended with a delivery that succeeded: the last request sent
    is the sendMessage call, and the API answered it with a payload whose
    success flag is true. *)
Definition delivered (net : list request → request → result string)
    (json_loads : string → result json) (urlencode : list (string * string) → string)
    (token chat_id : string) (w : world) : Prop :=
  ∃ h text body p,
    sent w = h ++ [telegram_request urlencode token chat_id text]
    ∧ net h (telegram_request urlencode token chat_id text) = Ok body
    ∧ json_loads body = Ok (JDict p)
    ∧ ¬ flag_false p.

(** The first truthy value of an ordered list of candidates, [dflt] when
    there is none: the priority list that a chain [a or b or ... or dflt]
    spells out. *)
Fixpoint first_truthy (candidates : list json) (dflt : json) : json :=
  match candidates with
  | [] => dflt
  | v :: rest => if truthy v then v else first_truthy rest dflt
  end.

(** What the last candidate of a field of a BSE record is. *)
Definition bse_default (f : field) (as_on : pydate) : json :=
  match f with
  | FDate => JStr (isoformat as_on)
  | _ => JStr ""
  end.

(** A text that [strip] leaves alone at its left end. *)
Definition starts_clean (s : string) : Prop :=
  match s with
  | EmptyString => True
  | String c _ => Str.isspace c = false
  end.

(** A universe entry as the resolvers build it: not empty, and unchanged by
    [upper]. *)
Definition listed_symbol (s : string) : Prop := s ≠ "" ∧ Str.upper s = s.

(** The computation only adds requests to the log, each of them satisfying
    [P], and prints nothing. *)
Definition sends_only (P : request → Prop) {A} (m : M A) : Prop :=
  ∀ w, ∃ l, sent (m w).1 = sent w ++ l ∧ Forall P l ∧ printed (m w).1 = printed w.

(** A request sent through the NSE opener, without a body. *)
Definition via_opener (rq : request) : Prop :=
  rq_opener rq = true ∧ rq_data rq = None.

(** A plain GET with the BSE headers, outside the NSE opener. *)
Definition bse_get (rq : request) : Prop :=
  rq_opener rq = false ∧ rq_data rq = None ∧ rq_headers rq = BSE_HEADERS.

(** ** Concrete worlds for closed examples *)

Module Scenario.

(** [str()] of the scalars; compound values and floats are not printed. *)
Definition repr (v : json) : string :=
  match v with
  | JNull => "None"
  | JBool true => "True"
  | JBool false => "False"
  | JInt n => Str.of_Z n
  | JStr s => s
  | _ => "..."
  end.

Definition abc_entry : pydict :=
  [("symbol", JStr "abc"); ("date", JStr "01-Jan-2024"); ("quantityTraded", JStr "500");
   ("pricePerShare", JStr "12.5"); ("clientName", JStr "A"); ("sellerName", JStr "B")].

Definition abc_row : DealRow :=
  mkDealRow "NSE" "BULK" "abc" "01-Jan-2024" "500" "12.5" "A" "B".

Definition r1 : DealRow := mkDealRow "NSE" "BULK" "AAA" "d" "1" "2" "b" "s".
Definition r2 : DealRow := mkDealRow "NSE" "BLOCK" "BBB" "d" "3" "4" "b" "s".

(** 2024-01-01 *)
Definition today : pydate := 738886.

Definition environ : gmap string string :=
  {[ "TELEGRAM_BOT_TOKEN" := "T"; "TELEGRAM_CHAT_ID" := "42" ]}.

(** Form encoding of texts that need no escaping. *)
Definition urlencode (kv : list (string * string)) : string :=
  Str.join "&" (map (λ p, p.1 +:+ "=" +:+ p.2) kv).

Fixpoint lookup_text {A} (t : list (string * A)) (k : string) : option A :=
  match t with
  | [] => None
  | (k', v) :: t' => if String.eqb k' k then Some v else lookup_text t' k
  end.

(** A network that answers by URL alone; a URL not listed cannot be reached. *)
Definition net_of (t : list (string * string)) (_ : list request) (rq : request)
  : result string :=
  from_option Ok (Raise (Exn "URLError" "<urlopen error timed out>"))
              (lookup_text t (rq_url rq)).

Definition json_of (t : list (string * json)) (body : string) : result json :=
  from_option Ok (Raise (Exn "JSONDecodeError" "Expecting value: line 1 column 1 (char 0)"))
              (lookup_text t body).

Definition csv_of (t : list (string * list (gmap string string))) (text : string)
  : result (list (gmap string string)) :=
  Ok (default [] (lookup_text t text)).

Definition xyz_entry : pydict :=
  [("symbol", JStr "XYZ"); ("date", JStr "01-Jan-2024"); ("quantityTraded", JStr "900");
   ("pricePerShare", JStr "7"); ("clientName", JStr "C"); ("sellerName", JStr "D")].

Definition xyz_row : DealRow :=
  mkDealRow "NSE" "BULK" "XYZ" "01-Jan-2024" "900" "7" "C" "D".

Definition qrs_entry : pydict :=
  [("Security", JStr "QRS"); ("Qty", JStr "100"); ("Price", JStr "55");
   ("BuyerName", JStr "E"); ("SellerName", JStr "F")].

Definition qrs_row : DealRow :=
  mkDealRow "BSE" "BULK" "QRS" "2024-01-01" "100" "55" "E" "F".

(** Decoded bodies: both NSE bulk endpoints list the same two deals, the BSE
    bulk endpoint lists one deal twice. *)
Definition bodies : list (string * json) :=
  [ ("nse-bulk", JDict [("data", JList [JDict abc_entry; JDict xyz_entry])]);
    ("bse-list", JDict [("Table", JList [JDict [("scrip_cd", JStr "qrs")]])]);
    ("bse-bulk", JDict [("Table", JList [JDict qrs_entry; JDict qrs_entry])]);
    ("bse-block", JDict [("Table", JList [])]);
    ("sent", JDict [("ok", JBool true)]) ].

Definition json_loads : string → result json := json_of bodies.

(** The NSE security master: ABC is an SME symbol, MAIN is not. *)
Definition listings : list (string * list (gmap string string)) :=
  [ ("equity-list",
     [ {[ "SYMBOL" := "ABC"; " SERIES" := " SM" ]};
       {[ "SYMBOL" := "MAIN"; " SERIES" := " EQ" ]} ]) ].

Definition csv_DictReader : string → result (list (gmap string string)) :=
  csv_of listings.

Definition deal_urls : list (string * string) :=
  [ ("https://www.nseindia.com", "<html>");
    ("https://www.nseindia.com/api/historicalOR/bulk-deals?from=01-01-2024&to=01-01-2024", "nse-bulk");
    ("https://www.nseindia.com/api/historicalOR/bulk-block-short-deals?optionType=bulk_deals&from=01-01-2024&to=01-01-2024", "nse-bulk");
    ("https://api.bseindia.com/BseIndiaAPI/api/MktWatchBulkDealData/w?strType=B&strDate=20240101", "bse-bulk");
    ("https://api.bseindia.com/BseIndiaAPI/api/MktWatchBulkDealData/w?strType=BL&strDate=20240101", "bse-block");
    ("https://api.telegram.org/botT/sendMessage", "sent") ].

Definition universe_urls : list (string * string) :=
  [ ("https://nsearchives.nseindia.com/content/equities/EQUITY_L.csv", "equity-list");
    ("https://api.bseindia.com/BseIndiaAPI/api/ListofScripData/w?group=&Scripcode=&industry=&segment=SME", "bse-list") ].

(** Every source answers. *)
Definition net_up : list request → request → result string :=
  net_of (deal_urls ++ universe_urls).

(** The two symbol sources cannot be reached, the deal endpoints answer. *)
Definition net_universe_down : list request → request → result string :=
  net_of deal_urls.

(** Only the Telegram endpoint answers. *)
Definition net_telegram_only : list request → request → result string :=
  net_of [("https://api.telegram.org/botT/sendMessage", "sent")].

(** The deal endpoints answer and the NSE listing URL answers with a page
    that is not the security master; the BSE symbol source cannot be reached. *)
Definition net_listing_garbled : list request → request → result string :=
  net_of (deal_urls ++
          [("https://nsearchives.nseindia.com/content/equities/EQUITY_L.csv", "<html>")]).

(** Nothing answers. *)
Definition net_down : list request → request → result string := net_of [].

End Scenario.

(** * Properties *)

Example upper_abc : Str.upper "abc" = "ABC".
Proof. reflexivity. Qed.

Example strip_ex : Str.strip "  a b  " = "a b".
Proof. reflexivity. Qed.

Example of_Z_ex : Str.of_Z 0 = "0" ∧ Str.of_Z 42 = "42" ∧ Str.of_Z (-7) = "-7".
Proof. repeat split; reflexivity. Qed.

Example iso_ex : isoformat 738886 = "2024-01-01" ∧ isoformat 719163 = "1970-01-01"
  ∧ isoformat 738945 = "2024-02-29" ∧ isoformat 739251 = "2024-12-31" ∧ isoformat 1 = "0001-01-01"
  ∧ isoformat MAXORDINAL = "9999-12-31" ∧ strftime_dmY 738946 = "01-03-2024".
Proof. repeat split; vm_compute; reflexivity. Qed.

Example int_ex : py_int " 20 " = Ok 20 ∧ py_int "-3" = Ok (-3) ∧ py_int "1_000" = Ok 1000
  ∧ py_int "+7" = Ok 7 ∧ raised (py_int "x") ∧ raised (py_int "") ∧ raised (py_int "1__0") ∧ raised (py_int "_1").
Proof. repeat split; try reflexivity; eexists; reflexivity. Qed.

Example slice_ex : slice_to [1;2;3] 2 = [1;2] ∧ slice_to [1;2;3] (-1) = [1;2] ∧ slice_to [1;2;3] (-5) = [] ∧ slice_to [1;2;3] 7 = [1;2;3].
Proof. repeat split. Qed.

(** ** The filter *)

Lemma keep_listed_filter (rows : list DealRow) (symbols : gset string) :
  keep_listed rows symbols = filter (λ r, Str.upper (symbol r) ∈ symbols) rows.
Proof.
  induction rows as [|r rows IH]; [done|].
  cbn [keep_listed]. rewrite filter_cons, IH.
  case_bool_decide; case_decide; done.
Qed.

Lemma filter_sme_filter (rows : list DealRow) (symbols : gset string) :
  filter_sme rows symbols =
    if decide (symbols = ∅) then rows
    else filter (λ r, Str.upper (symbol r) ∈ symbols) rows.
Proof.
  unfold filter_sme. rewrite keep_listed_filter.
  case_bool_decide; case_decide; done.
Qed.

Lemma filter_sme_sublist (rows : list DealRow) (symbols : gset string) :
  filter_sme rows symbols `sublist_of` rows.
Proof.
  rewrite filter_sme_filter. case_decide; [done|apply sublist_filter].
Qed.

Lemma filter_sme_empty (rows : list DealRow) : filter_sme rows ∅ = rows.
Proof. reflexivity. Qed.

(** C1. [filter_sme] returns the input list itself when the universe is empty;
    otherwise it returns, in their original order, exactly the records whose
    uppercased symbol belongs to the universe. *)
Theorem filter_sme_spec (rows : list DealRow) (symbols : gset string) :
  filter_sme rows symbols =
    (if decide (symbols = ∅) then rows
     else filter (λ r, Str.upper (symbol r) ∈ symbols) rows)
  ∧ filter_sme rows symbols `sublist_of` rows
  ∧ ∀ r, r ∈ filter_sme rows symbols ↔
         r ∈ rows ∧ (symbols = ∅ ∨ Str.upper (symbol r) ∈ symbols).
Proof.
  split_and!; [apply filter_sme_filter|apply filter_sme_sublist|].
  intros r. rewrite filter_sme_filter. case_decide.
  - tauto.
  - rewrite list_elem_of_filter. tauto.
Qed.

(** ** The normalizers *)

Lemma get_lacking (item : pydict) (k : string) : assoc item k = None → get item k = JNull.
Proof. unfold get. by intros ->. Qed.

Ltac lacking H :=
  repeat match type of H with
         | Forall _ (_ :: _) =>
             let Hk := fresh "Hk" in
             apply Forall_cons in H as [Hk H]; apply get_lacking in Hk; rewrite Hk
         end.

Lemma nse_row_lacking py_repr exch dtype (item : pydict) (f : field) :
  lacks item (nse_keys f) → field_of f (nse_row py_repr exch dtype item) = "".
Proof.
  unfold lacks. intros H. destruct f; cbn [field_of nse_row nse_keys symbol date quantity price buyer seller] in *;
    lacking H; reflexivity.
Qed.

Lemma rstrip_no_space (s : string) : Str.no_space s = true → Str.rstrip s = s.
Proof.
  induction s as [|c s IH]; [done|].
  cbn [Str.no_space Str.rstrip]. intros [Hc Hs]%andb_true_iff.
  rewrite (IH Hs). destruct s; [|done].
  by destruct (Str.isspace c).
Qed.

Lemma strip_no_space (s : string) : Str.no_space s = true → Str.strip s = s.
Proof.
  intros H. unfold Str.strip.
  assert (Str.lstrip s = s) as ->; [|by apply rstrip_no_space].
  destruct s as [|c s]; [done|]. cbn in *.
  apply andb_true_iff in H as [Hc _]. by destruct (Str.isspace c).
Qed.

Lemma no_space_app (a b : string) :
  Str.no_space (a +:+ b) = Str.no_space a && Str.no_space b.
Proof.
  induction a as [|c a IH]; [done|].
  simpl. by rewrite IH, andb_assoc.
Qed.

Lemma no_space_uint (d : Decimal.uint) : Str.no_space (NilEmpty.string_of_uint d) = true.
Proof. induction d; cbn [NilEmpty.string_of_uint Str.no_space]; [done|by rewrite IHd..]. Qed.

Lemma no_space_of_Z (n : Z) : Str.no_space (Str.of_Z n) = true.
Proof.
  unfold Str.of_Z, NilZero.string_of_int.
  destruct (Z.to_int n) as [d|d]; unfold NilZero.string_of_uint.
  - destruct d; try done; apply (no_space_uint (_ d)).
  - cbn [Str.no_space]. destruct d; try done; apply (no_space_uint (_ d)).
Qed.

Lemma no_space_isoformat (d : pydate) : Str.no_space (isoformat d) = true.
Proof.
  unfold isoformat. destruct (ord2ymd d) as [[y m] dd].
  unfold Str.pad4, Str.pad2.
  repeat case_match; rewrite ?no_space_app, ?no_space_of_Z; done.
Qed.

Lemma string_length_app (a b : string) :
  String.length (a +:+ b) = (String.length a + String.length b)%nat.
Proof. induction a as [|c a IH]; simpl; [done|by rewrite IH]. Qed.

Lemma isoformat_nonempty (d : pydate) : isoformat d ≠ "".
Proof.
  unfold isoformat. destruct (ord2ymd d) as [[y m] dd].
  intros H. apply (f_equal String.length) in H.
  rewrite !string_length_app in H. cbn in H. lia.
Qed.

Lemma bse_row_lacking py_repr dtype as_on (item : pydict) (f : field) :
  lacks item (bse_keys f) →
  field_of f (bse_row py_repr dtype as_on item) =
    match f with FDate => isoformat as_on | _ => "" end.
Proof.
  unfold lacks. intros H.
  destruct f; cbn [field_of bse_row bse_keys symbol date quantity price buyer seller] in *;
    lacking H; try reflexivity.
  unfold py_or at 1 2. cbn [truthy py_str].
  apply strip_no_space, no_space_isoformat.
Qed.

Lemma parse_items_spec py_repr exch dtype (data : list json) (rows : list DealRow) :
  parse_items py_repr exch dtype data rows
  = rows ++ dict_rows (nse_row py_repr exch dtype) data.
Proof.
  revert rows. induction data as [|v data IH]; intros rows; cbn [parse_items].
  - by rewrite app_nil_r.
  - destruct v; rewrite IH; try done. by rewrite <- app_assoc.
Qed.

Lemma bse_items_spec py_repr dtype as_on (table : list json) (rows : list DealRow) :
  bse_items py_repr dtype as_on table rows
  = rows ++ dict_rows (bse_row py_repr dtype as_on) table.
Proof.
  revert rows. induction table as [|v table IH]; intros rows; cbn [bse_items].
  - by rewrite app_nil_r.
  - destruct v; rewrite IH; try done. by rewrite <- app_assoc.
Qed.

(** C6, as amended. A payload entry that lacks every candidate key of a field
    is normalized to the empty string in that field, for each of the six
    extracted fields of an NSE record and for every field but the date of a
    BSE record; the date of a BSE record falls back to the ISO text of the
    day that was queried. *)
Theorem normalizer_missing_keys py_repr (item : pydict) (f : field) :
  (lacks item (nse_keys f) →
     ∀ exch dtype, field_of f (nse_row py_repr exch dtype item) = "")
  ∧ (lacks item (bse_keys f) →
     ∀ dtype as_on,
       field_of f (bse_row py_repr dtype as_on item) =
         match f with FDate => isoformat as_on | _ => "" end).
Proof.
  split; intros H *.
  - by apply nse_row_lacking.
  - by apply bse_row_lacking.
Qed.

Lemma normalizer_missing_keys_witness :
  lacks [("qty", JStr "5")] (nse_keys FSymbol)
  ∧ lacks [("qty", JStr "5")] (bse_keys FDate)
  ∧ field_of FSymbol (nse_row Scenario.repr "NSE" "BULK" [("qty", JStr "5")]) = ""
  ∧ field_of FDate (bse_row Scenario.repr "bulk" 738886 [("qty", JStr "5")]) = isoformat 738886.
Proof.
  assert (H1 : lacks [("qty", JStr "5")] (nse_keys FSymbol)) by (repeat constructor).
  assert (H2 : lacks [("qty", JStr "5")] (bse_keys FDate)) by (repeat constructor).
  split_and!; [exact H1|exact H2|..].
  - exact (proj1 (normalizer_missing_keys Scenario.repr _ FSymbol) H1 "NSE" "BULK").
  - exact (proj2 (normalizer_missing_keys Scenario.repr _ FDate) H2 "bulk" 738886).
Defined.

(** C6, as stated, fails for the date of a BSE record: an empty entry fetched
    for 2024-01-01 gets that date, not the empty string. *)
Lemma bse_date_not_empty :
  lacks [] (bse_keys FDate)
  ∧ field_of FDate (bse_row Scenario.repr "bulk" 738886 []) = "2024-01-01"
  ∧ field_of FDate (bse_row Scenario.repr "bulk" 738886 []) ≠ "".
Proof. split_and!; [repeat constructor|reflexivity|discriminate]. Qed.

Lemma filter_sme_keep (r : DealRow) (symbols : gset string) :
  Str.upper (symbol r) ∈ symbols → filter_sme [r] symbols = [r].
Proof.
  intros H. unfold filter_sme. case_bool_decide; [done|].
  cbn [keep_listed]. by rewrite bool_decide_eq_true_2.
Qed.

Lemma py_or_text (s : string) (y : json) : s ≠ "" → JStr s ||| y = JStr s.
Proof.
  intros H. unfold py_or. cbn [truthy].
  destruct (String.eqb_spec s ""); done.
Qed.

Lemma py_or_chain (vs : list json) (d : json) :
  foldl py_or (hd d (vs ++ [d])) (tl (vs ++ [d])) = first_truthy vs d.
Proof.
  induction vs as [|a vs IH]; [done|].
  cbn [app hd tl first_truthy].
  destruct (truthy a) eqn:Ha.
  - clear IH. generalize (vs ++ [d]). intros l.
    induction l as [|b l IHl]; [done|]. cbn [foldl]. unfold py_or at 2.
    by rewrite Ha.
  - rewrite <- IH. destruct vs as [|b vs]; cbn [app hd tl foldl].
    + unfold py_or. by rewrite Ha.
    + unfold py_or at 2. by rewrite Ha.
Qed.

(** C5, as amended. No normalizer changes the case of a symbol: the symbol of
    every record built for either exchange is the stripped text of the first
    truthy value among its three candidate keys, in the case it arrived in,
    and every record of [parse_json_rows] and of [fetch_bse_deals] is built
    this way. [filter_sme] uppercases the symbol for its membership test only
    and hands on the records it keeps unchanged. *)
Theorem symbol_case_kept py_repr (item : pydict) :
  let nse_value :=
    first_truthy [get item "symbol"; get item "scripName"; get item "Security"]
                 (JStr "") in
  let bse_value :=
    first_truthy [get item "Security"; get item "scripname"; get item "ScripName"]
                 (JStr "") in
  (∀ exch dtype,
     symbol (nse_row py_repr exch dtype item) = Str.strip (py_str py_repr nse_value)
     ∧ ∀ s, nse_value = JStr s → symbol (nse_row py_repr exch dtype item) = Str.strip s)
  ∧ (∀ dtype as_on,
       symbol (bse_row py_repr dtype as_on item) = Str.strip (py_str py_repr bse_value)
       ∧ ∀ s, bse_value = JStr s →
              symbol (bse_row py_repr dtype as_on item) = Str.strip s)
  ∧ (∀ exch dtype data,
       parse_items py_repr exch dtype data []
       = dict_rows (nse_row py_repr exch dtype) data)
  ∧ (∀ dtype as_on table rows,
       bse_items py_repr dtype as_on table rows
       = rows ++ dict_rows (bse_row py_repr dtype as_on) table)
  ∧ (∀ rows symbols, filter_sme rows symbols `sublist_of` rows)
  ∧ (∀ r symbols,
       filter_sme [r] symbols = [r] ↔ symbols = ∅ ∨ Str.upper (symbol r) ∈ symbols).
Proof.
  intros nse_value bse_value.
  assert (∀ exch dtype,
            symbol (nse_row py_repr exch dtype item)
            = Str.strip (py_str py_repr nse_value)) as Hn.
  { intros. cbn [nse_row symbol]. do 2 f_equal.
    exact (py_or_chain [get item "symbol"; get item "scripName"; get item "Security"]
             (JStr "")). }
  assert (∀ dtype as_on,
            symbol (bse_row py_repr dtype as_on item)
            = Str.strip (py_str py_repr bse_value)) as Hb.
  { intros. cbn [bse_row symbol]. do 2 f_equal.
    exact (py_or_chain [get item "Security"; get item "scripname"; get item "ScripName"]
             (JStr "")). }
  split; [|split; [|split; [|split; [|split]]]].
  - intros. split; [apply Hn|]. intros s Hs. by rewrite Hn, Hs.
  - intros. split; [apply Hb|]. intros s Hs. by rewrite Hb, Hs.
  - intros. by rewrite parse_items_spec.
  - intros. apply bse_items_spec.
  - apply filter_sme_sublist.
  - intros r symbols. rewrite filter_sme_filter. case_decide as He.
    + split; [by left|done].
    + rewrite filter_cons, filter_nil. case_decide as Hin.
      * split; [by right|done].
      * split; [discriminate|]. by intros [?|?].
Qed.

Lemma symbol_case_kept_witness :
  symbol (nse_row Scenario.repr "NSE" "BULK" Scenario.abc_entry) = "abc"
  ∧ filter_sme [nse_row Scenario.repr "NSE" "BULK" Scenario.abc_entry] {["ABC"]}
    = [nse_row Scenario.repr "NSE" "BULK" Scenario.abc_entry].
Proof.
  pose proof (symbol_case_kept Scenario.repr Scenario.abc_entry)
    as (Hn & _ & _ & _ & _ & Hkeep).
  split.
  - exact (proj2 (Hn "NSE" "BULK") "abc" eq_refl).
  - apply Hkeep. right. apply elem_of_singleton. reflexivity.
Defined.

(** C5, as stated, fails: the entry with symbol "abc" is normalized to a
    record whose symbol is still "abc", and the filter for the universe
    {"ABC"} returns that record as it is. *)
Lemma lowercase_symbol_survives :
  parse_json_rows Scenario.repr (JDict [("data", JList [JDict Scenario.abc_entry])])
                  "NSE" "BULK" = Ok [Scenario.abc_row]
  ∧ filter_sme [Scenario.abc_row] {["ABC"]} = [Scenario.abc_row]
  ∧ symbol Scenario.abc_row ≠ Str.upper (symbol Scenario.abc_row)
  ∧ symbol Scenario.abc_row ≠ "ABC".
Proof.
  split_and!; [reflexivity| |discriminate|discriminate].
  apply filter_sme_keep, elem_of_singleton. reflexivity.
Qed.

(** ** The formatter *)

Lemma format_rows_empty (title : string) (max_rows : Z) :
  format_rows title [] max_rows
  = Str.join Str.nl [title; "- No SME deals found"].
Proof. reflexivity. Qed.

(** X15. For a maximum that is not negative the report has the title, one line per
    record for the first [max_rows] records, and, when records are left over,
    a last line that counts them. *)
Lemma format_rows_nonneg (title : string) (rows : list DealRow) (max_rows : Z) :
  0 ≤ max_rows → rows ≠ [] →
  let shown := take (Z.to_nat max_rows) rows in
  let hidden := drop (Z.to_nat max_rows) rows in
  format_rows title rows max_rows
  = Str.join Str.nl
      ([title] ++ map row_line shown
       ++ match hidden with [] => [] | _ => [more_line (Z.of_nat (length hidden))] end)
  ∧ Z.of_nat (length shown) = Z.min (Z.of_nat (length rows)) max_rows
  ∧ Z.of_nat (length hidden) = Z.max 0 (Z.of_nat (length rows) - max_rows).
Proof.
  intros Hmax Hrows. cbv zeta.
  pose proof (length_take rows (Z.to_nat max_rows)) as Hs.
  pose proof (length_drop rows (Z.to_nat max_rows)) as Hh.
  split_and!; [|lia|lia].
  destruct rows as [|r rows]; [done|].
  unfold format_rows, format_lines, slice_to.
  destruct (Z.leb_spec 0 max_rows); [|lia].
  destruct (Z.gtb_spec (Z.of_nat (length (r :: rows))) max_rows) as [Hgt|Hle];
    destruct (drop (Z.to_nat max_rows) (r :: rows)) as [|h hidden];
    cbn [length] in *; try lia.
  - rewrite <- app_assoc. do 5 f_equal. lia.
  - by rewrite app_nil_r.
Qed.

(** C7 at a negative maximum. With [max_rows = -1] the slice [rows[:-1]]
    keeps all records but the last: a list of two records is reported with
    one record line, above the maximum, and a last line announcing three
    more. *)
Theorem format_rows_negative_max :
  format_rows "NSE" [Scenario.r1; Scenario.r2] (-1)
  = Str.join Str.nl ["NSE"; row_line Scenario.r1; "- ... and 3 more"]
  ∧ slice_to [Scenario.r1; Scenario.r2] (-1) = [Scenario.r1]
  ∧ ¬ (Z.of_nat (length (slice_to [Scenario.r1; Scenario.r2] (-1))) ≤ -1).
Proof. split_and!; [reflexivity|reflexivity|cbn; lia]. Qed.

(** ** De-duplication *)

Lemma row_key_inj (a b : DealRow) : row_key a = row_key b → a = b.
Proof. destruct a, b. unfold row_key. cbn. intros [= -> -> -> -> -> -> -> ->]. done. Qed.

Lemma keyed_values (acc : list DealRow) : (keyed acc).*2 = acc.
Proof. induction acc as [|a acc IH]; [done|]. cbn [keyed map fmap list_fmap snd]. f_equal. exact IH. Qed.

Lemma dict_set_seen (acc : list DealRow) (r : DealRow) :
  r ∈ acc → dict_set (keyed acc) (row_key r) r = keyed acc.
Proof.
  induction acc as [|a acc IH]; intros Hin; [by apply elem_of_nil in Hin|].
  cbn [keyed map dict_set]. case_decide as Hk.
  - by rewrite (row_key_inj _ _ Hk).
  - apply elem_of_cons in Hin as [->|Hin]; [done|].
    f_equal. by apply IH.
Qed.

Lemma dict_set_new (acc : list DealRow) (r : DealRow) :
  r ∉ acc → dict_set (keyed acc) (row_key r) r = keyed (acc ++ [r]).
Proof.
  induction acc as [|a acc IH]; intros Hin; [done|].
  apply not_elem_of_cons in Hin as [Hne Hin].
  cbn [keyed map dict_set app]. case_decide as Hk.
  - by apply row_key_inj in Hk.
  - f_equal. by apply IH.
Qed.

Lemma first_seen_filter (P : DealRow → Prop) `{∀ x, Decision (P x)} (l : list DealRow) :
  filter P (first_seen l) = first_seen (filter P l).
Proof.
  induction l as [|x l IH]; [done|].
  cbn [first_seen]. rewrite !filter_cons. case_decide as HP.
  - cbn [first_seen]. f_equal. rewrite <- IH, !list_filter_filter.
    apply list_filter_iff. tauto.
  - rewrite <- IH, list_filter_filter. apply list_filter_iff.
    intros y. split; [tauto|]. intros Hy. split; [done|]. by intros ->.
Qed.

Lemma dedup_fold (rows acc : list DealRow) :
  (foldl (λ uniq r, dict_set uniq (row_key r) r) (keyed acc) rows).*2
  = acc ++ first_seen (filter (λ r, r ∉ acc) rows).
Proof.
  revert acc. induction rows as [|r rows IH]; intros acc.
  - cbn [foldl]. rewrite keyed_values, filter_nil. cbn [first_seen]. by rewrite app_nil_r.
  - cbn [foldl]. rewrite filter_cons. case_decide as Hin.
    + rewrite dict_set_new, IH by done.
      cbn [first_seen]. rewrite first_seen_filter, list_filter_filter, <- app_assoc.
      cbn [app]. do 3 f_equal. apply list_filter_iff.
      intros x. rewrite not_elem_of_app, list_elem_of_singleton. tauto.
    + by rewrite dict_set_seen, IH.
Qed.

Lemma filter_all {A} (P : A → Prop) `{∀ x, Decision (P x)} (l : list A) :
  (∀ x, P x) → filter P l = l.
Proof.
  intros HP. induction l as [|x l IH]; [done|].
  by rewrite filter_cons_True, IH.
Qed.

Lemma dedup_rows_first_seen (rows : list DealRow) : dedup_rows rows = first_seen rows.
Proof.
  unfold dedup_rows. change (@nil (_ * DealRow)) with (keyed []).
  rewrite (dedup_fold rows []). cbn [app]. f_equal.
  apply filter_all. intros x. apply not_elem_of_nil.
Qed.

Lemma elem_of_first_seen (rows : list DealRow) (r : DealRow) :
  r ∈ first_seen rows ↔ r ∈ rows.
Proof.
  induction rows as [|x rows IH]; [done|].
  cbn [first_seen]. rewrite !elem_of_cons, list_elem_of_filter, IH.
  destruct (decide (r = x)); tauto.
Qed.

Lemma NoDup_first_seen (rows : list DealRow) : NoDup (first_seen rows).
Proof.
  induction rows as [|x rows IH]; [constructor|].
  cbn [first_seen]. constructor.
  - rewrite list_elem_of_filter. tauto.
  - by apply NoDup_filter.
Qed.

(** ** Running the monad *)

Lemma bind_run {A B} (m : M A) (k : A → M B) (w : world) :
  bind m k w = match m w with
               | (w', Ok a) => k a w'
               | (w', Raise e) => (w', Raise e)
               end.
Proof. reflexivity. Qed.

Lemma bind_Ok_inv {A B} (m : M A) (k : A → M B) (w w' : world) (b : B) :
  bind m k w = (w', Ok b) → ∃ w1 a, m w = (w1, Ok a) ∧ k a w1 = (w', Ok b).
Proof.
  rewrite bind_run. destruct (m w) as [w1 [a|e]]; [eauto|discriminate].
Qed.

Lemma ret_Ok_inv {A} (a b : A) (w w' : world) : ret a w = (w', Ok b) → w' = w ∧ b = a.
Proof. by intros [= -> ->]. Qed.

(** C4, as amended. [fetch_nse_deals] returns the rows of its queries with,
    of records equal in all eight fields, only the first kept and the order
    otherwise unchanged; so the NSE record list that reaches the formatter has
    no two equal records. *)
Theorem nse_rows_deduplicated net json_loads csv_DictReader py_repr :
  (∀ rows, dedup_rows rows = first_seen rows
           ∧ NoDup (dedup_rows rows)
           ∧ ∀ r, r ∈ dedup_rows rows ↔ r ∈ rows)
  ∧ (∀ opener from_date to_date w w' rows,
       fetch_nse_deals net json_loads py_repr opener from_date to_date w = (w', Ok rows) →
       ∃ raw,
         nse_candidates_loop net json_loads py_repr opener
           (nse_candidates from_date to_date) [] w = (w', Ok raw)
         ∧ rows = first_seen raw)
  ∧ (∀ from_date to_date w w' rows,
       nse_block net json_loads csv_DictReader py_repr from_date to_date w = (w', Ok rows) →
       NoDup rows).
Proof.
  split_and!.
  - intros rows. rewrite dedup_rows_first_seen.
    split_and!; [done|apply NoDup_first_seen|apply elem_of_first_seen].
  - intros * H. apply bind_Ok_inv in H as (w1 & raw & Hloop & Hret).
    apply ret_Ok_inv in Hret as [-> ->].
    exists raw. by rewrite dedup_rows_first_seen.
  - intros * H. unfold nse_block in H.
    apply bind_Ok_inv in H as (w1 & opener & _ & H).
    apply bind_Ok_inv in H as (w2 & sme & _ & H).
    apply bind_Ok_inv in H as (w3 & deals & Hdeals & H).
    apply ret_Ok_inv in H as [-> ->].
    apply bind_Ok_inv in Hdeals as (w4 & raw & _ & Hret).
    apply ret_Ok_inv in Hret as [-> ->].
    eapply sublist_NoDup; [|apply filter_sme_sublist].
    rewrite dedup_rows_first_seen. apply NoDup_first_seen.
Qed.

Lemma nse_rows_deduplicated_witness :
  nse_block Scenario.net_up Scenario.json_loads Scenario.csv_DictReader Scenario.repr
            Scenario.today Scenario.today world0
  = (World [ Request "https://www.nseindia.com" [] None true;
             Request "https://nsearchives.nseindia.com/content/equities/EQUITY_L.csv"
                     [("User-Agent", USER_AGENT)] None true;
             Request "https://www.nseindia.com/api/historicalOR/bulk-deals?from=01-01-2024&to=01-01-2024" [] None true;
             Request "https://www.nseindia.com/api/historicalOR/block-deals?from=01-01-2024&to=01-01-2024" [] None true;
             Request "https://www.nseindia.com/api/historicalOR/bulk-block-short-deals?optionType=bulk_deals&from=01-01-2024&to=01-01-2024" [] None true;
             Request "https://www.nseindia.com/api/historicalOR/bulk-block-short-deals?optionType=block_deals&from=01-01-2024&to=01-01-2024" [] None true ]
           [],
     Ok [Scenario.abc_row])
  ∧ NoDup [Scenario.abc_row].
Proof.
  assert (H : nse_block Scenario.net_up Scenario.json_loads Scenario.csv_DictReader
                Scenario.repr Scenario.today Scenario.today world0
              = (World [ Request "https://www.nseindia.com" [] None true;
             Request "https://nsearchives.nseindia.com/content/equities/EQUITY_L.csv"
                     [("User-Agent", USER_AGENT)] None true;
             Request "https://www.nseindia.com/api/historicalOR/bulk-deals?from=01-01-2024&to=01-01-2024" [] None true;
             Request "https://www.nseindia.com/api/historicalOR/block-deals?from=01-01-2024&to=01-01-2024" [] None true;
             Request "https://www.nseindia.com/api/historicalOR/bulk-block-short-deals?optionType=bulk_deals&from=01-01-2024&to=01-01-2024" [] None true;
             Request "https://www.nseindia.com/api/historicalOR/bulk-block-short-deals?optionType=block_deals&from=01-01-2024&to=01-01-2024" [] None true ]
           [], Ok [Scenario.abc_row])) by (vm_compute; reflexivity).
  split; [exact H|].
  exact (proj2 (proj2 (nse_rows_deduplicated _ _ _ _)) _ _ _ _ _ H).
Defined.

(** C4, as stated, fails for BSE: the bulk endpoint lists one deal twice, and
    both copies are in the record list that goes to the formatter. *)
Lemma bse_rows_keep_duplicates :
  (bse_block Scenario.net_up Scenario.json_loads Scenario.repr
             Scenario.today Scenario.today world0).2
  = Ok [Scenario.qrs_row; Scenario.qrs_row]
  ∧ ¬ NoDup [Scenario.qrs_row; Scenario.qrs_row].
Proof.
  split; [vm_compute; reflexivity|].
  intros H. apply NoDup_cons in H as [H _]. apply H, elem_of_cons. by left.
Qed.

(** ** The notifier *)

Lemma send_telegram_message_run net json_loads urlencode py_repr
    (token chat_id text : string) (w : world) :
  send_telegram_message net json_loads urlencode py_repr token chat_id text w
  = (World (sent w ++ [telegram_request urlencode token chat_id text]) (printed w),
     match net (sent w) (telegram_request urlencode token chat_id text) with
     | Raise e => Raise e
     | Ok body =>
         match json_loads body with
         | Raise e => Raise e
         | Ok (JDict p) =>
             if truthy (get p "ok") then Ok tt
             else Raise (telegram_error py_repr (JDict p))
         | Ok v => Raise (no_get v)
         end
     end).
Proof.
  unfold send_telegram_message. rewrite bind_run. unfold urlopen.
  destruct (net _ _) as [body|e]; [|done].
  rewrite bind_run. unfold lift.
  destruct (json_loads body) as [v|e]; [|done].
  destruct v; try done. by destruct (truthy _).
Qed.

(** C9, as amended. [send_telegram_message] makes one call and prints
    nothing. It returns normally exactly when the call is completed and the
    body decodes to a JSON object whose success flag is true. It raises
    exactly when the call cannot be completed, or the body is not a JSON
    object, or the flag of the object is false as [not payload.get("ok")]
    reads it (false, null, 0, empty or missing). The error for a false flag
    is the [RuntimeError] that carries the payload; the error of a failed
    call and the error of [json.loads] are raised as they are, and a decoded
    value that is not an object raises the error of its [get]. *)
Theorem send_telegram_message_outcome net json_loads urlencode py_repr
    (token chat_id text : string) (w : world) :
  let rq := telegram_request urlencode token chat_id text in
  let out := send_telegram_message net json_loads urlencode py_repr token chat_id text w in
  out.1 = World (sent w ++ [rq]) (printed w)
  ∧ (out.2 = Ok tt ↔
       ∃ body p, net (sent w) rq = Ok body ∧ json_loads body = Ok (JDict p)
                 ∧ truthy (get p "ok") = true)
  ∧ (raised out.2 ↔
       (∃ e, net (sent w) rq = Raise e)
       ∨ (∃ body, net (sent w) rq = Ok body ∧ ∀ p, json_loads body ≠ Ok (JDict p))
       ∨ (∃ body p, net (sent w) rq = Ok body ∧ json_loads body = Ok (JDict p)
                    ∧ flag_false p))
  ∧ out.2 = match net (sent w) rq with
            | Raise e => Raise e
            | Ok body =>
                match json_loads body with
                | Raise e => Raise e
                | Ok (JDict p) =>
                    if truthy (get p "ok") then Ok tt
                    else Raise (Exn "RuntimeError"
                                    ("Telegram API error: "
                                     +:+ py_str py_repr (JDict p)))
                | Ok v => Raise (Exn "AttributeError"
                                     ("'" +:+ type_name v
                                      +:+ "' object has no attribute 'get'"))
                end
            end.
Proof.
  intros rq out. subst out. rewrite send_telegram_message_run. fold rq.
  cbn [fst snd]. unfold flag_false.
  destruct (net (sent w) rq) as [body|e].
  - destruct (json_loads body) as [v|e] eqn:Hj.
    + destruct v as [| | | | | |p].
      7: { destruct (truthy (get p "ok")) eqn:Hok.
           - split_and!; [done| | |done].
             + split; [intros _; by exists body, p|done].
             + split; [intros [e He]; discriminate|].
               intros [[e [=]]|[(body' & [= <-] & Hp)|(body' & p' & [= <-] & Hj' & Hf)]].
               * by destruct (Hp p).
               * congruence.
           - split_and!; [done| | |done].
             + split; [discriminate|].
               intros (body' & p' & [= <-] & Hj' & Hf). congruence.
             + split; [|intros _; by eexists].
               intros _. right. right. by exists body, p. }
      all: split_and!; [done| | |done].
      all: try (split; [discriminate|];
                intros (body' & p' & [= <-] & Hj' & _); rewrite Hj in Hj'; discriminate).
      all: split; [|intros _; by eexists].
      all: intros _; right; left; exists body; split; [done|].
      all: intros p' Hp'; rewrite Hj in Hp'; discriminate.
    + split_and!; [done| | |done].
      * split; [discriminate|].
        intros (body' & p' & [= <-] & Hj' & _). rewrite Hj in Hj'. discriminate.
      * split; [|intros _; by eexists].
        intros _. right. left. exists body. split; [done|].
        intros p' Hp'. rewrite Hj in Hp'. discriminate.
  - split_and!; [done| | |done].
    + split; [discriminate|]. intros (body' & p' & [=] & _).
    + split; [|intros _; by eexists]. intros _. left. by eexists.
Qed.

(** C9, as stated, fails in its "only if": the call is completed and answers
    with a page that is not JSON; there is no payload and so no false flag,
    and the notifier raises the error of [json.loads]. *)
Lemma html_reply_raises :
  Scenario.net_of [("https://api.telegram.org/botT/sendMessage", "<html>")] []
    (telegram_request Scenario.urlencode "T" "42" "hello") = Ok "<html>"
  ∧ (∀ p, Scenario.json_loads "<html>" ≠ Ok (JDict p))
  ∧ (send_telegram_message
       (Scenario.net_of [("https://api.telegram.org/botT/sendMessage", "<html>")])
       Scenario.json_loads Scenario.urlencode Scenario.repr "T" "42" "hello" world0).2
    = Raise (Exn "JSONDecodeError" "Expecting value: line 1 column 1 (char 0)").
Proof. split_and!; [reflexivity|intros p; discriminate|reflexivity]. Qed.

(** A reply that is not a JSON object has no flag to read; the notifier
    raises on it too. *)
Lemma send_telegram_message_malformed net json_loads urlencode py_repr
    (token chat_id text body : string) (w : world) :
  net (sent w) (telegram_request urlencode token chat_id text) = Ok body →
  api_reply_of json_loads (Ok body) = None →
  raised (send_telegram_message net json_loads urlencode py_repr token chat_id text w).2.
Proof.
  intros Hnet Hnone. rewrite send_telegram_message_run, Hnet. cbn [snd].
  unfold api_reply_of in Hnone.
  destruct (json_loads body) as [[| | | | | |p]|e]; try discriminate; by eexists.
Qed.

(** ** The run *)

Section Run.

Variable net : list request → request → result string.
Variable json_loads : string → result json.
Variable csv_DictReader : string → result (list (gmap string string)).
Variable urlencode : list (string * string) → string.
Variable py_repr : json → string.
Variable today : pydate.
Variable environ : gmap string string.

Local Abbreviation token := (Str.strip (getenv environ "TELEGRAM_BOT_TOKEN" "")).
Local Abbreviation chat_id := (Str.strip (getenv environ "TELEGRAM_CHAT_ID" "")).
Local Abbreviation main' := (main net json_loads csv_DictReader urlencode py_repr today environ).
Local Abbreviation nse_block' := (nse_block net json_loads csv_DictReader py_repr).
Local Abbreviation bse_block' := (bse_block net json_loads py_repr).
Local Abbreviation send' := (send_telegram_message net json_loads urlencode py_repr).

Lemma guarded_caught (name : string) (block : M (list DealRow)) (notes : list string)
    (w : world) :
  ∃ w' rows notes',
    guarded name block notes w = (w', Ok (rows, notes'))
    ∧ caught name block w w' rows notes notes'.
Proof.
  unfold guarded, try_except, caught. rewrite bind_run.
  destruct (block w) as [w' [rows|e]]; [by eauto 10|].
  exists w', [], (notes ++ [warning name e]). split; [done|]. right. eauto.
Qed.

Lemma main_unconfigured (w : world) :
  token = "" ∨ chat_id = "" →
  main' w = (World (sent w) (printed w ++ [(Stderr, NO_CREDENTIALS)]), Ok 2).
Proof.
  intros H. unfold main.
  assert (bool_decide (token = "") || bool_decide (chat_id = "") = true) as ->; [|done].
  destruct H as [H|H]; rewrite H; [done|]. by rewrite orb_true_r.
Qed.

Lemma main_configured_test :
  token ≠ "" → chat_id ≠ "" →
  bool_decide (token = "") || bool_decide (chat_id = "") = false.
Proof. intros. by rewrite !bool_decide_eq_false_2. Qed.

Lemma main_bad_settings (w : world) (e : exn) :
  token ≠ "" → chat_id ≠ "" →
  settings environ today = Raise e →
  main' w = (w, Raise e).
Proof.
  intros Ht Hc Hs. unfold main. rewrite main_configured_test by done.
  unfold settings in Hs. rewrite !bind_run. unfold lift.
  destruct (py_int (getenv environ "LOOKBACK_DAYS" "1")) as [lb|e1]; [|congruence].
  rewrite !bind_run.
  destruct (py_int (getenv environ "MAX_ROWS_PER_SECTION" "20")) as [mr|e2]; [|congruence].
  rewrite !bind_run.
  destruct (timedelta _) as [delta|e3]; [|congruence].
  rewrite !bind_run.
  destruct (date_add _ _) as [from|e4]; [discriminate|congruence].
Qed.

Lemma main_configured (w : world) (max_rows : Z) (from_date : pydate) :
  token ≠ "" → chat_id ≠ "" →
  settings environ today = Ok (max_rows, from_date) →
  ∃ w1 w2 nse_rows bse_rows notes1 notes2,
    caught "NSE" (nse_block' from_date today) w w1 nse_rows [] notes1
    ∧ caught "BSE" (bse_block' from_date today) w1 w2 bse_rows notes1 notes2
    ∧ main' w =
        match send' token chat_id
                (Str.join Str.nl
                   (message_parts from_date today nse_rows bse_rows notes2 max_rows)) w2
        with
        | (w3, Ok _) => (World (sent w3) (printed w3 ++ [(Stdout, SENT_OK)]), Ok 0)
        | (w3, Raise e) => (w3, Raise e)
        end.
Proof.
  intros Ht Hc Hs. unfold main. rewrite main_configured_test by done.
  unfold settings in Hs. rewrite !bind_run. unfold lift.
  destruct (py_int (getenv environ "LOOKBACK_DAYS" "1")) as [lb|e1]; [|discriminate].
  rewrite !bind_run.
  destruct (py_int (getenv environ "MAX_ROWS_PER_SECTION" "20")) as [mr|e2]; [|discriminate].
  rewrite !bind_run.
  destruct (timedelta _) as [delta|e3]; [|discriminate].
  rewrite !bind_run.
  destruct (date_add _ _) as [from|e4]; [|discriminate].
  injection Hs as -> ->.
  destruct (guarded_caught "NSE" (nse_block' from_date today) [] w)
    as (w1 & nse_rows & notes1 & Hg1 & H1).
  destruct (guarded_caught "BSE" (bse_block' from_date today) notes1 w1)
    as (w2 & bse_rows & notes2 & Hg2 & H2).
  exists w1, w2, nse_rows, bse_rows, notes1, notes2.
  split_and!; [done|done|].
  rewrite bind_run, Hg1, bind_run. cbn [fst snd]. rewrite Hg2, bind_run. cbn [fst snd].
  by destruct (send' _ _ _ w2) as [w3 [[]|e]].
Qed.



Lemma caught_raise (name : string) (block : M (list DealRow)) (w w' : world)
    (rows : list DealRow) (notes notes' : list string) (e : exn) :
  caught name block w w' rows notes notes' → block w = (w', Raise e) →
  rows = [] ∧ warning name e ∈ notes'.
Proof.
  intros [[Hok _]|(e' & Hr & -> & ->)] He; [congruence|].
  assert (e' = e) as -> by congruence.
  split; [done|]. apply elem_of_app. right. by apply list_elem_of_singleton.
Qed.


Lemma strip_all_space (s : string) : Str.all_space s = true → Str.strip s = "".
Proof.
  intros H. unfold Str.strip.
  assert (Str.lstrip s = "") as ->; [|done].
  induction s as [|c s IH]; [done|].
  cbn in *. apply andb_true_iff in H as [-> H]. by apply IH.
Qed.

Lemma script_unconfigured :
  token = "" ∨ chat_id = "" →
  script net json_loads csv_DictReader urlencode py_repr today environ
  = (World [] [(Stderr, NO_CREDENTIALS)], Exit 2).
Proof. intros H. unfold script. by rewrite main_unconfigured. Qed.

(** C8. With TELEGRAM_BOT_TOKEN or TELEGRAM_CHAT_ID missing the process
    exits with code 2 and has sent no request; with both present, a run whose
    delivery succeeds exits with code 0, whatever the exchange fetches gave. *)
Theorem exit_codes :
  (environ !! "TELEGRAM_BOT_TOKEN" = None ∨ environ !! "TELEGRAM_CHAT_ID" = None →
     script net json_loads csv_DictReader urlencode py_repr today environ
     = (World [] [(Stderr, NO_CREDENTIALS)], Exit 2))
  ∧ (token ≠ "" → chat_id ≠ "" →
     delivered net json_loads urlencode token chat_id
       (script net json_loads csv_DictReader urlencode py_repr today environ).1 →
     (script net json_loads csv_DictReader urlencode py_repr today environ).2 = Exit 0).
Proof.
  split.
  - intros H. apply script_unconfigured. unfold getenv.
    destruct H as [-> | ->]; [by left|by right].
  - intros Ht Hc (h & text & body & p & Hsent & Hnet & Hjson & Hflag).
    unfold script in *.
    destruct (settings environ today) as [[max_rows from_date]|e] eqn:Hs.
    + destruct (main_configured world0 max_rows from_date Ht Hc Hs)
        as (w1 & w2 & nse_rows & bse_rows & notes1 & notes2 & _ & _ & Hmain).
      rewrite Hmain in Hsent |- *.
      remember (Str.join Str.nl
                  (message_parts from_date today nse_rows bse_rows notes2 max_rows)) as msg.
      destruct (send' token chat_id msg w2) as [w3 r] eqn:Hsend.
      rewrite send_telegram_message_run in Hsend. injection Hsend as <- Hr.
      assert (sent w2 ++ [telegram_request urlencode token chat_id msg]
              = h ++ [telegram_request urlencode token chat_id text])
        as [Hh Hrq]%app_inj_tail.
      { rewrite <- Hsent. by destruct r. }
      subst h. rewrite <- Hrq in Hnet. rewrite Hnet, Hjson in Hr.
      unfold flag_false in Hflag.
      destruct (truthy (get p "ok")); [by subst r|done].
    + rewrite (main_bad_settings world0 e Ht Hc Hs) in Hsent. cbn in Hsent.
      by destruct h.
Qed.

(** C10. A TELEGRAM_BOT_TOKEN or TELEGRAM_CHAT_ID that is set to nothing but
    whitespace counts as missing: the process exits with code 2 and has sent
    no request. *)
Theorem blank_credentials_exit (s : string) :
  environ !! "TELEGRAM_BOT_TOKEN" = Some s ∨ environ !! "TELEGRAM_CHAT_ID" = Some s →
  Str.all_space s = true →
  script net json_loads csv_DictReader urlencode py_repr today environ
  = (World [] [(Stderr, NO_CREDENTIALS)], Exit 2).
Proof.
  intros H Hs. apply script_unconfigured. unfold getenv.
  destruct H as [-> | ->]; [left|right]; by apply strip_all_space.
Qed.

Lemma try_payload_unavailable (url : string) (headers : list (string * string))
    (opener : bool) (w : world) :
  unavailable net json_loads (Request url headers None opener) →
  try_payload net json_loads url headers opener w
  = (World (sent w ++ [Request url headers None opener]) (printed w), Ok None).
Proof.
  intros H. specialize (H (sent w)).
  unfold try_payload, try_except, _http_get_text, urlopen. rewrite bind_run.
  destruct (net _ _) as [body|e]; [|done].
  destruct H as [e He]. rewrite bind_run. unfold lift. by rewrite He.
Qed.

Lemma fetch_bse_sme_symbols_unavailable (w : world) :
  Forall (unavailable net json_loads) bse_listing_requests →
  fetch_bse_sme_symbols net json_loads py_repr w
  = (World (sent w ++ bse_listing_requests) (printed w), Ok ∅).
Proof.
  unfold bse_listing_requests, BSE_SME_URLS. cbn [map].
  intros [H1 [H2 _]%Forall_cons]%Forall_cons.
  unfold fetch_bse_sme_symbols, BSE_SME_URLS. cbn [bse_symbol_urls].
  rewrite bind_run, (try_payload_unavailable _ _ _ _ H1).
  rewrite bind_run, (try_payload_unavailable _ _ _ _ H2).
  cbn [sent printed]. by rewrite <- app_assoc.
Qed.

Lemma bind_ret_id {A} (m : M A) (f : A → A) (w : world) :
  (∀ a, f a = a) → bind m (λ a, ret (f a)) w = m w.
Proof.
  intros Hf. rewrite bind_run. destruct (m w) as [w' [a|e]]; [|done].
  unfold ret. by rewrite Hf.
Qed.

Lemma bse_block_unavailable (from_date to_date : pydate) (w : world) :
  Forall (unavailable net json_loads) bse_listing_requests →
  bse_block' from_date to_date w
  = bse_days net json_loads py_repr (Z.to_nat (to_date - from_date + 1))
             from_date to_date []
             (World (sent w ++ bse_listing_requests) (printed w)).
Proof.
  intros H. unfold bse_block.
  rewrite bind_run, (fetch_bse_sme_symbols_unavailable w H).
  apply bind_ret_id, filter_sme_empty.
Qed.

Lemma fetch_nse_sme_symbols_unreachable (opener : bool) (w : world) (e : exn) :
  net (sent w) (nse_listing_request opener) = Raise e →
  fetch_nse_sme_symbols net csv_DictReader opener w
  = (World (sent w ++ [nse_listing_request opener]) (printed w), Raise e).
Proof.
  intros H. unfold fetch_nse_sme_symbols, _http_get_text, urlopen.
  rewrite bind_run. fold (nse_listing_request opener). by rewrite H.
Qed.

Lemma nse_block_unreachable (from_date to_date : pydate) (w : world) (t : string)
    (e : exn) :
  net (sent w) warm_up_request = Ok t →
  net (sent w ++ [warm_up_request]) (nse_listing_request true) = Raise e →
  nse_block' from_date to_date w
  = (World (sent w ++ [warm_up_request; nse_listing_request true]) (printed w), Raise e).
Proof.
  intros Hwarm Hlist. unfold nse_block, build_nse_opener, urlopen.
  fold warm_up_request. rewrite !bind_run, Hwarm. cbn [ret].
  rewrite bind_run, fetch_nse_sme_symbols_unreachable with (e := e) by done.
  cbn [sent printed]. by rewrite <- app_assoc.
Qed.

(** A listing without a series column gives no symbol. *)
Lemma nse_symbols_no_series (rows : list (gmap string string)) (out : gset string) :
  Forall (λ row, row !! " SERIES" = None ∧ row !! "SERIES" = None) rows →
  foldl nse_symbol_step out rows = out.
Proof.
  revert out. induction rows as [|row rows IH]; intros out H; [done|].
  apply Forall_cons in H as [[H1 H2] H]. cbn [foldl].
  rewrite <- (IH out H) at 2. f_equal.
  unfold nse_symbol_step. by rewrite H1, H2.
Qed.

Lemma build_nse_opener_run (w : world) (t : string) :
  net (sent w) warm_up_request = Ok t →
  build_nse_opener net w = (World (sent w ++ [warm_up_request]) (printed w), Ok true).
Proof.
  intros H. unfold build_nse_opener, urlopen. fold warm_up_request.
  by rewrite bind_run, H.
Qed.

Lemma fetch_nse_sme_symbols_no_series (opener : bool) (w : world) (text : string)
    (rows : list (gmap string string)) :
  net (sent w) (nse_listing_request opener) = Ok text →
  csv_DictReader text = Ok rows →
  Forall (λ row, row !! " SERIES" = None ∧ row !! "SERIES" = None) rows →
  fetch_nse_sme_symbols net csv_DictReader opener w
  = (World (sent w ++ [nse_listing_request opener]) (printed w), Ok ∅).
Proof.
  intros Hnet Hcsv Hrows.
  unfold fetch_nse_sme_symbols, _http_get_text, urlopen.
  fold (nse_listing_request opener). rewrite bind_run, Hnet, bind_run.
  unfold lift. rewrite Hcsv. unfold ret. by rewrite nse_symbols_no_series.
Qed.

Lemma nse_block_no_series (from_date to_date : pydate) (w : world) (t text : string)
    (rows : list (gmap string string)) :
  net (sent w) warm_up_request = Ok t →
  net (sent w ++ [warm_up_request]) (nse_listing_request true) = Ok text →
  csv_DictReader text = Ok rows →
  Forall (λ row, row !! " SERIES" = None ∧ row !! "SERIES" = None) rows →
  nse_block' from_date to_date w
  = fetch_nse_deals net json_loads py_repr true from_date to_date
      (World (sent w ++ [warm_up_request; nse_listing_request true]) (printed w)).
Proof.
  intros Hwarm Hnet Hcsv Hrows. unfold nse_block.
  rewrite bind_run, (build_nse_opener_run _ _ Hwarm).
  rewrite bind_run, (fetch_nse_sme_symbols_no_series true _ text rows) by done.
  cbn [sent printed]. rewrite <- app_assoc. cbn [app].
  apply bind_ret_id, filter_sme_empty.
Qed.

(** C2, as amended. For BSE, when each of the two listing URLs is unreachable
    or answers with text that is not JSON, [fetch_bse_sme_symbols] returns the
    empty set without raising, and the BSE section of the run then hands on
    all fetched BSE rows unfiltered, with the notes as they were. For NSE,
    [fetch_nse_sme_symbols] returns the empty set for a listing that has no
    series column, and the NSE section of the run then hands on all the rows
    of [fetch_nse_deals] unfiltered, with the notes as they were; when the
    listing cannot be reached the error is raised, and the NSE section of the
    run then yields no rows and one more note, the NSE fetch warning with the
    text of the error. *)
Theorem universe_source_failures (from_date to_date : pydate) (notes : list string)
    (w : world) :
  (Forall (unavailable net json_loads) bse_listing_requests →
     let w' := World (sent w ++ bse_listing_requests) (printed w) in
     fetch_bse_sme_symbols net json_loads py_repr w = (w', Ok ∅)
     ∧ ∀ w'' all_rows,
         bse_days net json_loads py_repr (Z.to_nat (to_date - from_date + 1))
                  from_date to_date [] w' = (w'', Ok all_rows) →
         guarded "BSE" (bse_block' from_date to_date) notes w
         = (w'', Ok (all_rows, notes)))
  ∧ (∀ opener text rows,
       net (sent w) (nse_listing_request opener) = Ok text →
       csv_DictReader text = Ok rows →
       Forall (λ row, row !! " SERIES" = None ∧ row !! "SERIES" = None) rows →
       (fetch_nse_sme_symbols net csv_DictReader opener w).2 = Ok ∅)
  ∧ (∀ opener e,
       net (sent w) (nse_listing_request opener) = Raise e →
       (fetch_nse_sme_symbols net csv_DictReader opener w).2 = Raise e)
  ∧ (∀ t e,
       net (sent w) warm_up_request = Ok t →
       net (sent w ++ [warm_up_request]) (nse_listing_request true) = Raise e →
       (guarded "NSE" (nse_block' from_date to_date) notes w).2
       = Ok ([], notes ++ [warning "NSE" e]))
  ∧ (∀ t text rows,
       net (sent w) warm_up_request = Ok t →
       net (sent w ++ [warm_up_request]) (nse_listing_request true) = Ok text →
       csv_DictReader text = Ok rows →
       Forall (λ row, row !! " SERIES" = None ∧ row !! "SERIES" = None) rows →
       let w' := World (sent w ++ [warm_up_request; nse_listing_request true])
                       (printed w) in
       ∀ w'' deals,
         fetch_nse_deals net json_loads py_repr true from_date to_date w'
         = (w'', Ok deals) →
         guarded "NSE" (nse_block' from_date to_date) notes w
         = (w'', Ok (deals, notes))).
Proof.
  split; [|split; [|split; [|split]]].
  - intros H w'. split; [by apply fetch_bse_sme_symbols_unavailable|].
    intros w'' all_rows Hdays.
    unfold guarded, try_except. rewrite bind_run, (bse_block_unavailable _ _ _ H).
    fold w'. by rewrite Hdays.
  - intros opener text rows Hnet Hcsv Hrows.
    unfold fetch_nse_sme_symbols, _http_get_text, urlopen.
    fold (nse_listing_request opener). rewrite bind_run, Hnet, bind_run.
    unfold lift. rewrite Hcsv. cbn [ret snd]. by rewrite nse_symbols_no_series.
  - intros opener e H. by rewrite (fetch_nse_sme_symbols_unreachable _ _ _ H).
  - intros t e Hwarm Hlist.
    unfold guarded, try_except.
    by rewrite bind_run, (nse_block_unreachable _ _ _ _ _ Hwarm Hlist).
  - intros t text rows Hwarm Hnet Hcsv Hrows w' w'' deals Hdeals.
    unfold guarded, try_except.
    rewrite bind_run, (nse_block_no_series _ _ _ _ _ _ Hwarm Hnet Hcsv Hrows).
    fold w'. by rewrite Hdeals.
Qed.

End Run.

(** The bound [bse_block] passes to [bse_days] is the number of days left:
    a larger bound changes nothing, so the loop ends because its condition
    fails and not because the bound is reached. *)
Lemma bse_days_fuel net json_loads py_repr (n : nat) (cursor to_date : pydate)
    (all_rows : list DealRow) (w : world) :
  (Z.to_nat (to_date - cursor + 1) ≤ n)%nat →
  bse_days net json_loads py_repr n cursor to_date all_rows w
  = bse_days net json_loads py_repr (Z.to_nat (to_date - cursor + 1))
             cursor to_date all_rows w.
Proof.
  revert cursor all_rows w. induction n as [|n IH]; intros cursor all_rows w Hn.
  - by replace (Z.to_nat (to_date - cursor + 1)) with 0%nat by lia.
  - destruct (Z.leb_spec cursor to_date) as [Hle|Hgt].
    + replace (Z.to_nat (to_date - cursor + 1))
        with (S (Z.to_nat (to_date - (cursor + 1) + 1))) in * by lia.
      cbn [bse_days]. destruct (Z.leb_spec cursor to_date); [|lia].
      rewrite !bind_run. destruct (fetch_bse_deals _ _ _ _ _) as [w1 [rows|e]]; [|done].
      rewrite !bind_run. unfold lift, date_add.
      destruct ((0 <? cursor + 1) && (cursor + 1 <=? MAXORDINAL)); [|done].
      apply IH. lia.
    + replace (Z.to_nat (to_date - cursor + 1)) with 0%nat by lia.
      cbn [bse_days]. by destruct (Z.leb_spec cursor to_date); [lia|].
Qed.

(** ** Closed runs *)



Lemma exit_codes_witness :
  script Scenario.net_up Scenario.json_loads Scenario.csv_DictReader
         Scenario.urlencode Scenario.repr Scenario.today ∅
  = (World [] [(Stderr, NO_CREDENTIALS)], Exit 2)
  ∧ (script Scenario.net_telegram_only Scenario.json_loads Scenario.csv_DictReader
            Scenario.urlencode Scenario.repr Scenario.today Scenario.environ).2
    = Exit 0.
Proof.
  split.
  - apply (proj1 (exit_codes Scenario.net_up Scenario.json_loads Scenario.csv_DictReader
                    Scenario.urlencode Scenario.repr Scenario.today ∅)).
    left. reflexivity.
  - apply (proj2 (exit_codes Scenario.net_telegram_only Scenario.json_loads
                    Scenario.csv_DictReader Scenario.urlencode Scenario.repr
                    Scenario.today Scenario.environ)).
    + vm_compute. discriminate.
    + vm_compute. discriminate.
    + exists (removelast
                (sent (script Scenario.net_telegram_only Scenario.json_loads
                         Scenario.csv_DictReader Scenario.urlencode Scenario.repr
                         Scenario.today Scenario.environ).1)),
        (Str.join Str.nl
           (message_parts Scenario.today Scenario.today [] []
              [warning "NSE" (Exn "URLError" "<urlopen error timed out>")] 20)),
        "sent", [("ok", JBool true)].
      split_and!; [vm_compute; reflexivity..|].
      unfold flag_false. vm_compute. discriminate.
Defined.

Lemma blank_credentials_exit_witness :
  script Scenario.net_up Scenario.json_loads Scenario.csv_DictReader
         Scenario.urlencode Scenario.repr Scenario.today
         (<["TELEGRAM_BOT_TOKEN" := "  "]> Scenario.environ)
  = (World [] [(Stderr, NO_CREDENTIALS)], Exit 2).
Proof.
  apply (blank_credentials_exit Scenario.net_up Scenario.json_loads
           Scenario.csv_DictReader Scenario.urlencode Scenario.repr Scenario.today
           (<["TELEGRAM_BOT_TOKEN" := "  "]> Scenario.environ) "  ").
  - left. apply lookup_insert_eq.
  - reflexivity.
Defined.

Lemma universe_source_failures_witness :
  fetch_bse_sme_symbols Scenario.net_universe_down Scenario.json_loads Scenario.repr world0
  = (World bse_listing_requests [], Ok ∅)
  ∧ (guarded "NSE"
       (nse_block Scenario.net_universe_down Scenario.json_loads Scenario.csv_DictReader
                  Scenario.repr Scenario.today Scenario.today) [] world0).2
    = Ok ([], [warning "NSE" (Exn "URLError" "<urlopen error timed out>")])
  ∧ (guarded "NSE"
       (nse_block Scenario.net_listing_garbled Scenario.json_loads Scenario.csv_DictReader
                  Scenario.repr Scenario.today Scenario.today) [] world0).2
    = Ok ([Scenario.abc_row; Scenario.xyz_row], []).
Proof.
  pose proof (universe_source_failures Scenario.net_universe_down Scenario.json_loads
                Scenario.csv_DictReader Scenario.repr Scenario.today Scenario.today
                [] world0) as (Hbse & _ & _ & Hnse & _).
  pose proof (universe_source_failures Scenario.net_listing_garbled Scenario.json_loads
                Scenario.csv_DictReader Scenario.repr Scenario.today Scenario.today
                [] world0) as (_ & _ & _ & _ & Hplain).
  split; [|split].
  - apply Hbse. repeat constructor; intros h; vm_compute; exact I.
  - apply (Hnse "<html>"); vm_compute; reflexivity.
  - assert (H1 : Scenario.net_listing_garbled (sent world0) warm_up_request = Ok "<html>")
      by (vm_compute; reflexivity).
    assert (H2 : Scenario.net_listing_garbled (sent world0 ++ [warm_up_request])
                   (nse_listing_request true) = Ok "<html>")
      by (vm_compute; reflexivity).
    assert (H3 : Scenario.csv_DictReader "<html>" = Ok []) by (vm_compute; reflexivity).
    assert (H4 : Forall (λ row : gmap string string,
                           row !! " SERIES" = None ∧ row !! "SERIES" = None) [])
      by constructor.
    specialize (Hplain "<html>" "<html>" [] H1 H2 H3 H4). cbv zeta in Hplain.
    rewrite (Hplain
               (fetch_nse_deals Scenario.net_listing_garbled Scenario.json_loads
                  Scenario.repr true Scenario.today Scenario.today
                  (World (sent world0 ++ [warm_up_request; nse_listing_request true])
                         (printed world0))).1
               [Scenario.abc_row; Scenario.xyz_row]); [reflexivity|].
    vm_compute. reflexivity.
Defined.

(** C2, as stated, fails for NSE. In a run where neither symbol source can be
    reached and every deal endpoint answers, [fetch_nse_sme_symbols] raises
    instead of returning the empty set, and the message that goes out has no
    NSE deal and carries an NSE warning; the BSE deals are there unfiltered. *)
Lemma nse_universe_down_warns :
  (fetch_nse_sme_symbols Scenario.net_universe_down Scenario.csv_DictReader true
     (World [warm_up_request] [])).2
  = Raise (Exn "URLError" "<urlopen error timed out>")
  ∧ rq_data <$> last (sent (script Scenario.net_universe_down Scenario.json_loads
                              Scenario.csv_DictReader Scenario.urlencode Scenario.repr
                              Scenario.today Scenario.environ).1)
    = Some (Some ("chat_id=42&text=" +:+
         Str.join Str.nl
           [ "SME block/bulk scan (2024-01-01 to 2024-01-01)";
             "";
             "NSE";
             "- No SME deals found";
             "";
             "BSE";
             "- 2024-01-01 | BULK | QRS | Qty: 100 | Px: 55";
             "- 2024-01-01 | BULK | QRS | Qty: 100 | Px: 55";
             "";
             "Warnings:";
             "- NSE fetch warning: <urlopen error timed out>" ])).
Proof. split; vm_compute; reflexivity. Qed.

(** * Further properties of the code *)

(** ** Text helpers *)

Lemma upper_char_idemp (c : ascii) : Str.upper_char (Str.upper_char c) = Str.upper_char c.
Proof. destruct c as [[] [] [] [] [] [] [] []]; reflexivity. Qed.

Lemma upper_idemp (s : string) : Str.upper (Str.upper s) = Str.upper s.
Proof.
  induction s as [|c s IH]; [done|].
  cbn [Str.upper]. by rewrite upper_char_idemp, IH.
Qed.

Lemma upper_nonempty (s : string) : s ≠ "" → Str.upper s ≠ "".
Proof. by destruct s. Qed.

Lemma rstrip_cons (c : ascii) (s : string) :
  Str.rstrip (String c s)
  = match Str.rstrip s with
    | EmptyString => if Str.isspace c then EmptyString else String c EmptyString
    | String c' r => String c (String c' r)
    end.
Proof. reflexivity. Qed.

Lemma rstrip_idemp (s : string) : Str.rstrip (Str.rstrip s) = Str.rstrip s.
Proof.
  induction s as [|c s IH]; [done|].
  rewrite rstrip_cons. destruct (Str.rstrip s) as [|c' r] eqn:Hr.
  - destruct (Str.isspace c) eqn:Hc; [done|]. rewrite rstrip_cons. cbn. by rewrite Hc.
  - by rewrite rstrip_cons, IH.
Qed.

Lemma lstrip_starts_clean (s : string) : starts_clean (Str.lstrip s).
Proof.
  induction s as [|c s IH]; [done|].
  cbn [Str.lstrip]. by destruct (Str.isspace c) eqn:Hc.
Qed.

Lemma rstrip_starts_clean (s : string) : starts_clean s → starts_clean (Str.rstrip s).
Proof.
  destruct s as [|c s]; [done|]. cbn [starts_clean Str.rstrip]. intros Hc.
  destruct (Str.rstrip s); [by rewrite Hc|done].
Qed.

Lemma lstrip_clean (s : string) : starts_clean s → Str.lstrip s = s.
Proof. destruct s as [|c s]; [done|]. cbn. by intros ->. Qed.

Lemma strip_idemp (s : string) : Str.strip (Str.strip s) = Str.strip s.
Proof.
  unfold Str.strip.
  rewrite (lstrip_clean (Str.rstrip _)), rstrip_idemp; [done|].
  apply rstrip_starts_clean, lstrip_starts_clean.
Qed.

(** ** The normalizers, again *)

Lemma dict_rows_Forall (P : DealRow → Prop) (build : pydict → DealRow)
    (entries : list json) :
  (∀ item, P (build item)) → Forall P (dict_rows build entries).
Proof.
  intros HP. unfold dict_rows. induction entries as [|v entries IH]; [constructor|].
  cbn [omap list_omap]. destruct v; try exact IH. by constructor.
Qed.

Lemma dict_rows_length (build : pydict → DealRow) (entries : list json) :
  (length (dict_rows build entries) ≤ length entries)%nat.
Proof.
  unfold dict_rows. induction entries as [|v entries IH]; [done|].
  cbn [omap list_omap length]. destruct v; cbn [length]; lia.
Qed.

(** X1. [parse_json_rows] builds one record per entry of the "data" list that
    is a dict, in order, each with the exchange and the category it was
    called with; a payload whose "data" is missing or is not a list gives no
    record, and a payload that is not a dict raises the [AttributeError] of
    its [get]. *)
Theorem parse_json_rows_shape py_repr (exch dtype : string) :
  (∀ p data, get p "data" = JList data →
     parse_json_rows py_repr (JDict p) exch dtype
     = Ok (dict_rows (nse_row py_repr exch dtype) data))
  ∧ (∀ p, (∀ data, get p "data" ≠ JList data) →
       parse_json_rows py_repr (JDict p) exch dtype = Ok [])
  ∧ (∀ payload, (∀ p, payload ≠ JDict p) →
       parse_json_rows py_repr payload exch dtype = Raise (no_get payload))
  ∧ (∀ payload rows, parse_json_rows py_repr payload exch dtype = Ok rows →
       Forall (λ r, exchange r = exch ∧ deal_type r = dtype) rows
       ∧ ∀ p data, payload = JDict p → get p "data" = JList data →
                   (length rows ≤ length data)%nat).
Proof.
  split_and!.
  - intros p data Hd. unfold parse_json_rows. rewrite Hd. cbv iota.
    by rewrite parse_items_spec.
  - intros p Hd. cbn [parse_json_rows].
    destruct (get p "data") as [| | | | |data|] eqn:Hg; try done.
    by destruct (Hd data).
  - intros payload Hp. destruct payload as [| | | | | |p]; try done.
    by destruct (Hp p).
  - intros payload rows H.
    destruct payload as [| | | | | |p]; try discriminate.
    cbn [parse_json_rows] in H.
    destruct (get p "data") as [| | | | |data|] eqn:Hg;
      injection H as <-;
      try (split; [constructor|intros p' data' [= <-] Hd; rewrite Hg in Hd; discriminate]).
    rewrite parse_items_spec. cbn [app]. split.
    + by apply dict_rows_Forall.
    + intros p' data' [= <-] Hd. rewrite Hg in Hd. injection Hd as <-.
      apply dict_rows_length.
Qed.

Lemma parse_json_rows_shape_witness :
  parse_json_rows Scenario.repr
    (JDict [("data", JList [JDict Scenario.abc_entry; JStr "noise"])]) "NSE" "BULK"
  = Ok [Scenario.abc_row]
  ∧ parse_json_rows Scenario.repr (JDict [("data", JStr "none")]) "NSE" "BULK" = Ok []
  ∧ parse_json_rows Scenario.repr (JList []) "NSE" "BULK" = Raise (no_get (JList []))
  ∧ Forall (λ r, exchange r = "NSE" ∧ deal_type r = "BULK") [Scenario.abc_row].
Proof.
  pose proof (parse_json_rows_shape Scenario.repr "NSE" "BULK") as (H1 & H2 & H3 & H4).
  split_and!.
  - exact (H1 [("data", JList [JDict Scenario.abc_entry; JStr "noise"])] _ eq_refl).
  - apply H2. intros data. discriminate.
  - apply H3. intros p. discriminate.
  - exact (proj1 (H4 _ _ (H1 [("data", JList [JDict Scenario.abc_entry])] _ eq_refl))).
Defined.

(** X2. Every extracted field of a record, from either exchange, is stripped:
    it has no whitespace at either end. *)
Theorem normalized_fields_stripped py_repr (item : pydict) (f : field)
    (exch dtype : string) (as_on : pydate) :
  Str.strip (field_of f (nse_row py_repr exch dtype item))
  = field_of f (nse_row py_repr exch dtype item)
  ∧ Str.strip (field_of f (bse_row py_repr dtype as_on item))
    = field_of f (bse_row py_repr dtype as_on item).
Proof. split; destruct f; apply strip_idemp. Qed.

(** X3. Each field is read from a priority list: it is the stripped text of
    the first truthy value among the values of its candidate keys, in the
    order the code tries them, so that a value Python counts as false (null,
    0, the empty string, an empty list) under an earlier key yields to a
    later key; with no truthy value the field is the empty string, and for
    the date of a BSE record the ISO text of the queried day. *)
Theorem normalizer_priority_list py_repr (item : pydict) (f : field)
    (exch dtype : string) (as_on : pydate) :
  field_of f (nse_row py_repr exch dtype item)
  = Str.strip (py_str py_repr (first_truthy (map (get item) (nse_keys f)) (JStr "")))
  ∧ field_of f (bse_row py_repr dtype as_on item)
    = Str.strip (py_str py_repr
                   (first_truthy (map (get item) (bse_keys f)) (bse_default f as_on))).
Proof.
  split; destruct f;
    cbn [field_of nse_row bse_row nse_keys bse_keys bse_default map
         symbol date quantity price buyer seller];
    do 2 f_equal;
    match goal with
    | |- _ = first_truthy ?vs ?d => exact (py_or_chain vs d)
    end.
Qed.

(** ** De-duplication and filtering, again *)

Lemma filter_Forall_id {A} (P : A → Prop) `{∀ x, Decision (P x)} (l : list A) :
  Forall P l → filter P l = l.
Proof.
  induction 1 as [|x l Hx _ IH]; [done|]. by rewrite filter_cons_True, IH.
Qed.

Lemma first_seen_NoDup_id (rows : list DealRow) : NoDup rows → first_seen rows = rows.
Proof.
  induction 1 as [|r rows Hr _ IH]; [done|].
  cbn [first_seen]. rewrite IH. f_equal.
  apply filter_Forall_id, Forall_forall. intros x Hx ->. done.
Qed.

Lemma first_seen_length (rows : list DealRow) :
  (length (first_seen rows) ≤ length rows)%nat.
Proof.
  induction rows as [|r rows IH]; [done|].
  cbn [first_seen length].
  pose proof (length_filter (λ x, x ≠ r) (first_seen rows)). lia.
Qed.

(** X4. The de-duplication of [fetch_nse_deals] is idempotent, returns a list
    without duplicates as it is, and never returns more records than it
    received. *)
Theorem dedup_rows_idempotent (rows : list DealRow) :
  dedup_rows (dedup_rows rows) = dedup_rows rows
  ∧ (NoDup rows → dedup_rows rows = rows)
  ∧ (length (dedup_rows rows) ≤ length rows)%nat.
Proof.
  rewrite !dedup_rows_first_seen. split_and!.
  - apply first_seen_NoDup_id, NoDup_first_seen.
  - apply first_seen_NoDup_id.
  - apply first_seen_length.
Qed.

Lemma dedup_rows_idempotent_witness :
  NoDup [Scenario.abc_row; Scenario.xyz_row]
  ∧ dedup_rows [Scenario.abc_row; Scenario.xyz_row] = [Scenario.abc_row; Scenario.xyz_row].
Proof.
  assert (H : NoDup [Scenario.abc_row; Scenario.xyz_row]).
  { apply NoDup_cons. split; [|apply NoDup_singleton].
    intros Hin%list_elem_of_singleton. discriminate. }
  split; [exact H|].
  exact (proj1 (proj2 (dedup_rows_idempotent [Scenario.abc_row; Scenario.xyz_row])) H).
Defined.

(** X5. Filtering is idempotent, and it distributes over concatenation:
    filtering the rows of several queries or days together gives the filtered
    rows of each, in order. *)
Theorem filter_sme_idempotent_app (a b : list DealRow) (symbols : gset string) :
  filter_sme (filter_sme a symbols) symbols = filter_sme a symbols
  ∧ filter_sme (a ++ b) symbols = filter_sme a symbols ++ filter_sme b symbols.
Proof.
  rewrite !filter_sme_filter. case_decide; [done|]. split.
  - rewrite list_filter_filter. apply list_filter_iff. tauto.
  - apply filter_app.
Qed.

(** ** The universes *)

Lemma listed_symbol_upper_strip (s : string) :
  Str.upper (Str.strip s) ≠ "" → listed_symbol (Str.upper (Str.strip s)).
Proof. intros H. split; [done|apply upper_idemp]. Qed.

Lemma nse_symbol_step_listed (out : gset string) (row : gmap string string) :
  set_Forall listed_symbol out → set_Forall listed_symbol (nse_symbol_step out row).
Proof.
  intros Hout. unfold nse_symbol_step.
  case_bool_decide; [|done]. case_bool_decide as Hsym; [done|].
  apply set_Forall_union; [done|]. apply set_Forall_singleton.
  by apply listed_symbol_upper_strip.
Qed.

Lemma bse_symbol_step_listed py_repr (out : gset string) (row : json) :
  set_Forall listed_symbol out →
  set_Forall listed_symbol (bse_symbol_step py_repr out row).
Proof.
  intros Hout. unfold bse_symbol_step.
  destruct row; try done. case_bool_decide as Hsym; [done|].
  apply set_Forall_union; [done|]. apply set_Forall_singleton.
  by apply listed_symbol_upper_strip.
Qed.

Lemma foldl_invariant {A B} (P : A → Prop) (f : A → B → A) (l : list B) (a : A) :
  (∀ a b, P a → P (f a b)) → P a → P (foldl f a l).
Proof.
  intros Hf. revert a. induction l as [|b l IH]; intros a Ha; [done|].
  cbn [foldl]. apply IH, Hf, Ha.
Qed.

Lemma bse_symbol_keys_listed py_repr (payload : json) (keys : list string)
    (out out' : gset string) :
  set_Forall listed_symbol out →
  bse_symbol_keys py_repr payload keys out = Ok out' →
  set_Forall listed_symbol out'.
Proof.
  revert out. induction keys as [|key keys IH]; intros out Hout H.
  - by injection H as <-.
  - cbn [bse_symbol_keys] in H. destruct payload as [| | | | | |p]; try discriminate.
    destruct (get p key) as [| | | | |vals|]; try (by eapply IH).
    eapply IH; [|exact H].
    apply foldl_invariant; [|done]. intros. by apply bse_symbol_step_listed.
Qed.

Lemma lift_Ok_inv {A} (r : result A) (w w' : world) (a : A) :
  lift r w = (w', Ok a) → w' = w ∧ r = Ok a.
Proof. unfold lift. by intros [= -> ->]. Qed.

Lemma bse_symbol_urls_listed net json_loads py_repr (urls : list string)
    (out out' : gset string) (w w' : world) :
  set_Forall listed_symbol out →
  bse_symbol_urls net json_loads py_repr urls out w = (w', Ok out') →
  set_Forall listed_symbol out'.
Proof.
  revert out w. induction urls as [|url urls IH]; intros out w Hout H.
  - by injection H as _ <-.
  - cbn [bse_symbol_urls] in H.
    apply bind_Ok_inv in H as (w1 & p & _ & H).
    destruct p as [payload|]; [|by eapply IH].
    apply bind_Ok_inv in H as (w2 & out2 & Hkeys & H).
    apply lift_Ok_inv in Hkeys as [-> Hkeys].
    pose proof (bse_symbol_keys_listed _ _ _ _ _ Hout Hkeys) as Hout2.
    case_bool_decide; [by eapply IH|]. by injection H as _ <-.
Qed.

(** X6. Every symbol of a universe that a resolver returns is non-empty and
    in upper case, so that the membership test of [filter_sme], which
    uppercases the symbol of the record, can match it. *)
Theorem universes_hold_listed_symbols net json_loads csv_DictReader py_repr
    (opener : bool) (w w' : world) (out : gset string) :
  (fetch_nse_sme_symbols net csv_DictReader opener w = (w', Ok out) →
     set_Forall listed_symbol out)
  ∧ (fetch_bse_sme_symbols net json_loads py_repr w = (w', Ok out) →
     set_Forall listed_symbol out).
Proof.
  split; intros H.
  - apply bind_Ok_inv in H as (w1 & text & _ & H).
    apply bind_Ok_inv in H as (w2 & rows & _ & H).
    injection H as _ <-.
    apply foldl_invariant; [|apply set_Forall_empty].
    intros. by apply nse_symbol_step_listed.
  - eapply bse_symbol_urls_listed; [apply set_Forall_empty|exact H].
Qed.

Lemma universes_hold_listed_symbols_witness :
  set_Forall listed_symbol ({["ABC"]} : gset string)
  ∧ set_Forall listed_symbol ({["QRS"]} : gset string).
Proof.
  split.
  - refine (proj1 (universes_hold_listed_symbols Scenario.net_up Scenario.json_loads
                     Scenario.csv_DictReader Scenario.repr true
                     (World [warm_up_request] [])
                     (World [warm_up_request; nse_listing_request true] [])
                     {["ABC"]}) _).
    vm_compute. reflexivity.
  - refine (proj2 (universes_hold_listed_symbols Scenario.net_up Scenario.json_loads
                     Scenario.csv_DictReader Scenario.repr true
                     world0 (World [hd warm_up_request bse_listing_requests] [])
                     {["QRS"]}) _).
    vm_compute. reflexivity.
Defined.

(** ** What the sections send *)

Lemma sends_only_ret (P : request → Prop) {A} (a : A) : sends_only P (ret a).
Proof. intros w. exists []. by rewrite app_nil_r. Qed.

Lemma sends_only_lift (P : request → Prop) {A} (r : result A) : sends_only P (lift r).
Proof. intros w. exists []. by rewrite app_nil_r. Qed.

Lemma sends_only_urlopen net (P : request → Prop) (rq : request) :
  P rq → sends_only P (urlopen net rq).
Proof. intros HP w. exists [rq]. cbn. by repeat constructor. Qed.

Lemma sends_only_bind (P : request → Prop) {A B} (m : M A) (k : A → M B) :
  sends_only P m → (∀ a, sends_only P (k a)) → sends_only P (bind m k).
Proof.
  intros Hm Hk w. rewrite bind_run.
  destruct (Hm w) as (l1 & Hs1 & Hl1 & Hp1).
  destruct (m w) as [w1 [a|e]]; cbn [fst] in *; [|by exists l1].
  destruct (Hk a w1) as (l2 & Hs2 & Hl2 & Hp2).
  exists (l1 ++ l2). split_and!.
  - by rewrite Hs2, Hs1, app_assoc.
  - by apply Forall_app.
  - by rewrite Hp2.
Qed.

Lemma sends_only_try_except (P : request → Prop) {A} (m : M A) (h : exn → M A) :
  sends_only P m → (∀ e, sends_only P (h e)) → sends_only P (try_except m h).
Proof.
  intros Hm Hh w. unfold try_except.
  destruct (Hm w) as (l1 & Hs1 & Hl1 & Hp1).
  destruct (m w) as [w1 [a|e]]; cbn [fst] in *; [by exists l1|].
  destruct (Hh e w1) as (l2 & Hs2 & Hl2 & Hp2).
  exists (l1 ++ l2). split_and!.
  - by rewrite Hs2, Hs1, app_assoc.
  - by apply Forall_app.
  - by rewrite Hp2.
Qed.

Lemma sends_only_try_payload net json_loads (P : request → Prop) (url : string)
    (headers : list (string * string)) (opener : bool) :
  P (Request url headers None opener) →
  sends_only P (try_payload net json_loads url headers opener).
Proof.
  intros HP. apply sends_only_try_except; [|intros; apply sends_only_ret].
  apply sends_only_bind; [by apply sends_only_urlopen|]. intros body.
  apply sends_only_bind; [apply sends_only_lift|]. intros. apply sends_only_ret.
Qed.

Lemma sends_only_bind_result (P : request → Prop) {A B} (m : M A) (k : A → M B) :
  sends_only P m →
  (∀ w w' a, m w = (w', Ok a) → sends_only P (k a)) →
  sends_only P (bind m k).
Proof.
  intros Hm Hk w. rewrite bind_run.
  destruct (Hm w) as (l1 & Hs1 & Hl1 & Hp1).
  destruct (m w) as [w1 [a|e]] eqn:Hmw; cbn [fst] in *; [|by exists l1].
  destruct (Hk w w1 a Hmw w1) as (l2 & Hs2 & Hl2 & Hp2).
  exists (l1 ++ l2). split_and!.
  - by rewrite Hs2, Hs1, app_assoc.
  - by apply Forall_app.
  - by rewrite Hp2.
Qed.

Lemma build_nse_opener_result net (w w' : world) (opener : bool) :
  build_nse_opener net w = (w', Ok opener) → opener = true.
Proof.
  intros (w1 & t & _ & H)%bind_Ok_inv. by injection H as _ <-.
Qed.

Lemma sends_only_nse_candidates_loop net json_loads py_repr
    (candidates : list (string * string)) (rows : list DealRow) :
  sends_only via_opener
    (nse_candidates_loop net json_loads py_repr true candidates rows).
Proof.
  revert rows. induction candidates as [|[dtype url] rest IH]; intros rows.
  - apply sends_only_ret.
  - cbn [nse_candidates_loop]. apply sends_only_bind.
    + by apply sends_only_try_payload.
    + intros [payload|]; [|apply IH].
      apply sends_only_bind; [apply sends_only_lift|]. intros. apply IH.
Qed.

Lemma sends_only_nse_block net json_loads csv_DictReader py_repr
    (from_date to_date : pydate) :
  sends_only via_opener
    (nse_block net json_loads csv_DictReader py_repr from_date to_date).
Proof.
  apply sends_only_bind_result.
  { apply sends_only_bind; [by apply sends_only_urlopen|]. intros. apply sends_only_ret. }
  intros w w' opener ->%build_nse_opener_result.
  apply sends_only_bind.
  { apply sends_only_bind; [by apply sends_only_urlopen|]. intros.
    apply sends_only_bind; [apply sends_only_lift|]. intros. apply sends_only_ret. }
  intros sme. apply sends_only_bind; [|intros; apply sends_only_ret].
  apply sends_only_bind; [apply sends_only_nse_candidates_loop|].
  intros. apply sends_only_ret.
Qed.

Lemma sends_only_bse_symbol_urls net json_loads py_repr (urls : list string)
    (out : gset string) :
  sends_only bse_get (bse_symbol_urls net json_loads py_repr urls out).
Proof.
  revert out. induction urls as [|url urls IH]; intros out.
  - apply sends_only_ret.
  - cbn [bse_symbol_urls]. apply sends_only_bind.
    + by apply sends_only_try_payload.
    + intros [payload|]; [|apply IH].
      apply sends_only_bind; [apply sends_only_lift|]. intros out2.
      case_bool_decide; [apply IH|apply sends_only_ret].
Qed.

Lemma sends_only_bse_candidates_loop net json_loads py_repr (as_on : pydate)
    (candidates : list (string * string)) (rows : list DealRow) :
  sends_only bse_get
    (bse_candidates_loop net json_loads py_repr as_on candidates rows).
Proof.
  revert rows. induction candidates as [|[dtype url] rest IH]; intros rows.
  - apply sends_only_ret.
  - cbn [bse_candidates_loop]. apply sends_only_bind.
    + by apply sends_only_try_payload.
    + intros [payload|]; [|apply IH].
      destruct payload; try apply sends_only_lift.
      by destruct (_ ||| _).
Qed.

Lemma sends_only_bse_days net json_loads py_repr (n : nat) (cursor to_date : pydate)
    (all_rows : list DealRow) :
  sends_only bse_get (bse_days net json_loads py_repr n cursor to_date all_rows).
Proof.
  revert cursor all_rows. induction n as [|n IH]; intros cursor all_rows.
  - apply sends_only_ret.
  - cbn [bse_days]. destruct (cursor <=? to_date); [|apply sends_only_ret].
    apply sends_only_bind; [apply sends_only_bse_candidates_loop|]. intros rows.
    apply sends_only_bind; [apply sends_only_lift|]. intros. apply IH.
Qed.

Lemma sends_only_bse_block net json_loads py_repr (from_date to_date : pydate) :
  sends_only bse_get (bse_block net json_loads py_repr from_date to_date).
Proof.
  apply sends_only_bind; [apply sends_only_bse_symbol_urls|]. intros sme.
  apply sends_only_bind; [apply sends_only_bse_days|]. intros. apply sends_only_ret.
Qed.

(** X7. Every request of the NSE section goes through the cookie opener that
    [build_nse_opener] warmed up, and every request of the BSE section is a
    plain GET with the BSE headers outside that opener; neither section sends
    a body or prints anything, whether it returns or raises. *)
Theorem sections_send_only_their_requests net json_loads csv_DictReader py_repr
    (from_date to_date : pydate) :
  sends_only via_opener
    (nse_block net json_loads csv_DictReader py_repr from_date to_date)
  ∧ sends_only bse_get (bse_block net json_loads py_repr from_date to_date).
Proof. split; [apply sends_only_nse_block|apply sends_only_bse_block]. Qed.

(** ** The whole run, again *)

Section Outcomes.

Variable net : list request → request → result string.
Variable json_loads : string → result json.
Variable csv_DictReader : string → result (list (gmap string string)).
Variable urlencode : list (string * string) → string.
Variable py_repr : json → string.
Variable today : pydate.
Variable environ : gmap string string.

Local Abbreviation token := (Str.strip (getenv environ "TELEGRAM_BOT_TOKEN" "")).
Local Abbreviation chat_id := (Str.strip (getenv environ "TELEGRAM_CHAT_ID" "")).
Local Abbreviation script' :=
  (script net json_loads csv_DictReader urlencode py_repr today environ).



Local Abbreviation main' :=
  (main net json_loads csv_DictReader urlencode py_repr today environ).



End Outcomes.

(** ** Failing and misshapen sources *)

Section Sources.

Variable net : list request → request → result string.
Variable json_loads : string → result json.
Variable csv_DictReader : string → result (list (gmap string string)).
Variable py_repr : json → string.

(** X10. The warm-up comes first: when the request that seeds the cookies
    fails, the NSE section raises that error and has sent nothing else. *)
Theorem warm_up_failure_stops_nse (from_date to_date : pydate) (w : world) (e : exn) :
  net (sent w) warm_up_request = Raise e →
  nse_block net json_loads csv_DictReader py_repr from_date to_date w
  = (World (sent w ++ [warm_up_request]) (printed w), Raise e).
Proof.
  intros H. unfold nse_block, build_nse_opener, urlopen. fold warm_up_request.
  by rewrite !bind_run, H.
Qed.

Lemma nse_candidates_loop_unavailable (opener : bool)
    (candidates : list (string * string)) (rows : list DealRow) (w : world) :
  Forall (unavailable net json_loads)
         (map (λ c, Request c.2 [] None opener) candidates) →
  nse_candidates_loop net json_loads py_repr opener candidates rows w
  = (World (sent w ++ map (λ c, Request c.2 [] None opener) candidates) (printed w),
     Ok rows).
Proof.
  revert w. induction candidates as [|[dtype url] rest IH]; intros w H.
  - cbn. rewrite app_nil_r. by destruct w.
  - apply Forall_cons in H as [H1 H]. cbn [nse_candidates_loop map snd].
    rewrite bind_run, (try_payload_unavailable _ _ _ _ _ _ H1), (IH _ H).
    cbn [sent printed]. by rewrite <- app_assoc.
Qed.

Lemma bse_candidates_loop_unavailable (as_on : pydate)
    (candidates : list (string * string)) (rows : list DealRow) (w : world) :
  Forall (unavailable net json_loads)
         (map (λ c, Request c.2 BSE_HEADERS None false) candidates) →
  bse_candidates_loop net json_loads py_repr as_on candidates rows w
  = (World (sent w ++ map (λ c, Request c.2 BSE_HEADERS None false) candidates)
           (printed w),
     Ok rows).
Proof.
  revert w. induction candidates as [|[dtype url] rest IH]; intros w H.
  - cbn. rewrite app_nil_r. by destruct w.
  - apply Forall_cons in H as [H1 H]. cbn [bse_candidates_loop map snd].
    rewrite bind_run, (try_payload_unavailable _ _ _ _ _ _ H1), (IH _ H).
    cbn [sent printed]. by rewrite <- app_assoc.
Qed.

(** X11. The deal queries fail softly: when every endpoint variant is
    unreachable or answers with text that is not JSON, [fetch_nse_deals] and
    [fetch_bse_deals] still ask each of them once, in order, and return no
    rows instead of raising. *)
Theorem deal_queries_fail_softly (opener : bool) (from_date to_date as_on : pydate)
    (w : world) :
  (Forall (unavailable net json_loads)
          (map (λ c, Request c.2 [] None opener) (nse_candidates from_date to_date)) →
     fetch_nse_deals net json_loads py_repr opener from_date to_date w
     = (World (sent w ++ map (λ c, Request c.2 [] None opener)
                             (nse_candidates from_date to_date)) (printed w),
        Ok []))
  ∧ (Forall (unavailable net json_loads)
            (map (λ c, Request c.2 BSE_HEADERS None false) (bse_candidates as_on)) →
     fetch_bse_deals net json_loads py_repr as_on w
     = (World (sent w ++ map (λ c, Request c.2 BSE_HEADERS None false)
                             (bse_candidates as_on)) (printed w),
        Ok [])).
Proof.
  split; intros H.
  - unfold fetch_nse_deals.
    by rewrite bind_run, (nse_candidates_loop_unavailable _ _ _ _ H).
  - unfold fetch_bse_deals. by apply bse_candidates_loop_unavailable.
Qed.

Lemma try_payload_answer (url : string) (headers : list (string * string))
    (opener : bool) (w : world) (body : string) (v : json) :
  net (sent w) (Request url headers None opener) = Ok body →
  json_loads body = Ok v →
  try_payload net json_loads url headers opener w
  = (World (sent w ++ [Request url headers None opener]) (printed w), Ok (Some v)).
Proof.
  intros Hnet Hjson.
  unfold try_payload, try_except, _http_get_text, urlopen.
  rewrite bind_run, Hnet, bind_run. unfold lift. by rewrite Hjson.
Qed.

(** X12. A body that decodes to JSON that is not an object is not a soft
    failure: the [get] on it raises [AttributeError] outside the [try], so the
    deal loop of either exchange and the symbol loop of BSE stop at that
    endpoint with this error, the rows or symbols gathered so far are lost,
    and the endpoints after it are not asked. *)
Theorem non_object_payload_raises (opener : bool) (as_on : pydate)
    (dtype url body : string) (v : json) (w : world) :
  json_loads body = Ok v →
  (∀ p, v ≠ JDict p) →
  (∀ rest rows,
     net (sent w) (Request url [] None opener) = Ok body →
     nse_candidates_loop net json_loads py_repr opener ((dtype, url) :: rest) rows w
     = (World (sent w ++ [Request url [] None opener]) (printed w), Raise (no_get v)))
  ∧ (∀ rest rows,
       net (sent w) (Request url BSE_HEADERS None false) = Ok body →
       bse_candidates_loop net json_loads py_repr as_on ((dtype, url) :: rest) rows w
       = (World (sent w ++ [Request url BSE_HEADERS None false]) (printed w),
          Raise (no_get v)))
  ∧ (∀ rest out,
       net (sent w) (Request url BSE_HEADERS None false) = Ok body →
       bse_symbol_urls net json_loads py_repr (url :: rest) out w
       = (World (sent w ++ [Request url BSE_HEADERS None false]) (printed w),
          Raise (no_get v))).
Proof.
  intros Hjson Hv. split_and!; intros rest acc Hnet.
  - cbn [nse_candidates_loop].
    rewrite bind_run, (try_payload_answer _ _ _ _ _ _ Hnet Hjson), bind_run.
    destruct v as [| | | | | |p]; try done. by destruct (Hv p).
  - cbn [bse_candidates_loop].
    rewrite bind_run, (try_payload_answer _ _ _ _ _ _ Hnet Hjson).
    destruct v as [| | | | | |p]; try done. by destruct (Hv p).
  - cbn [bse_symbol_urls].
    rewrite bind_run, (try_payload_answer _ _ _ _ _ _ Hnet Hjson), bind_run.
    destruct v as [| | | | | |p]; try done. by destruct (Hv p).
Qed.

Lemma bse_symbol_keys_object (p : pydict) (keys : list string) (out : gset string) :
  ∃ out', bse_symbol_keys py_repr (JDict p) keys out = Ok out'.
Proof.
  revert out. induction keys as [|key keys IH]; intros out; [by eexists|].
  cbn [bse_symbol_keys]. by destruct (get p key).
Qed.

(** X13. The BSE resolver returns the first non-empty answer: when the first
    listing URL answers with an object that holds at least one symbol, the
    symbols of that answer are the universe and the second URL is not
    asked. *)
Theorem bse_symbols_first_answer (body : string) (p : pydict) (w : world) :
  net (sent w) (hd warm_up_request bse_listing_requests) = Ok body →
  json_loads body = Ok (JDict p) →
  ∃ out,
    bse_symbol_keys py_repr (JDict p) ["Table"; "Data"; "table"] ∅ = Ok out
    ∧ (out ≠ ∅ →
       fetch_bse_sme_symbols net json_loads py_repr w
       = (World (sent w ++ [hd warm_up_request bse_listing_requests]) (printed w),
          Ok out)).
Proof.
  intros Hnet Hjson.
  destruct (bse_symbol_keys_object p ["Table"; "Data"; "table"] ∅) as [out Hout].
  exists out. split; [done|]. intros Hne.
  unfold fetch_bse_sme_symbols, BSE_SME_URLS. cbn [bse_symbol_urls].
  rewrite bind_run, (try_payload_answer _ _ _ _ _ _ Hnet Hjson), bind_run.
  unfold lift. rewrite Hout. by rewrite bool_decide_eq_false_2.
Qed.

End Sources.

(** ** The scan window *)




(** ** Closed runs for the further properties *)

Lemma format_rows_nonneg_witness :
  format_rows "NSE" [Scenario.r1; Scenario.r2] 1
  = Str.join Str.nl ["NSE"; row_line Scenario.r1; more_line 1].
Proof.
  refine (proj1 (format_rows_nonneg "NSE" [Scenario.r1; Scenario.r2] 1 _ _)).
  - lia.
  - discriminate.
Defined.


Lemma warm_up_failure_stops_nse_witness :
  nse_block Scenario.net_telegram_only Scenario.json_loads Scenario.csv_DictReader
            Scenario.repr Scenario.today Scenario.today world0
  = (World [warm_up_request] [], Raise (Exn "URLError" "<urlopen error timed out>")).
Proof.
  apply (warm_up_failure_stops_nse Scenario.net_telegram_only Scenario.json_loads
           Scenario.csv_DictReader Scenario.repr Scenario.today Scenario.today world0).
  reflexivity.
Defined.

Lemma deal_queries_fail_softly_witness :
  (fetch_nse_deals Scenario.net_down Scenario.json_loads Scenario.repr true
                   Scenario.today Scenario.today world0).2 = Ok []
  ∧ (fetch_bse_deals Scenario.net_down Scenario.json_loads Scenario.repr
                     Scenario.today world0).2 = Ok [].
Proof.
  pose proof (deal_queries_fail_softly Scenario.net_down Scenario.json_loads
                Scenario.repr true Scenario.today Scenario.today Scenario.today world0)
    as [Hn Hb].
  split.
  - rewrite Hn; [done|]. repeat constructor; intros h; vm_compute; exact I.
  - rewrite Hb; [done|]. repeat constructor; intros h; vm_compute; exact I.
Defined.

Lemma non_object_payload_raises_witness :
  bse_candidates_loop (Scenario.net_of [("u", "array")])
                      (Scenario.json_of [("array", JList [])]) Scenario.repr
                      Scenario.today [("bulk", "u"); ("block", "v")] [] world0
  = (World [Request "u" BSE_HEADERS None false] [], Raise (no_get (JList []))).
Proof.
  refine (proj1 (proj2 (non_object_payload_raises
                          (Scenario.net_of [("u", "array")])
                          (Scenario.json_of [("array", JList [])]) Scenario.repr
                          false Scenario.today "bulk" "u" "array" (JList []) world0 _ _))
            [("block", "v")] [] _).
  - reflexivity.
  - intros p. discriminate.
  - reflexivity.
Defined.

Lemma bse_symbols_first_answer_witness :
  fetch_bse_sme_symbols Scenario.net_up Scenario.json_loads Scenario.repr world0
  = (World [hd warm_up_request bse_listing_requests] [], Ok {["QRS"]}).
Proof.
  destruct (bse_symbols_first_answer Scenario.net_up Scenario.json_loads Scenario.repr
              "bse-list" [("Table", JList [JDict [("scrip_cd", JStr "qrs")]])] world0)
    as (out & Hout & Hfetch); [reflexivity..|].
  assert (out = {["QRS"]}) as ->.
  { assert (Ok out = Ok ({["QRS"]} : gset string)) as [= ->]; [|done].
    rewrite <- Hout. vm_compute. reflexivity. }
  apply Hfetch. intros H. apply (f_equal (λ s : gset string, bool_decide ("QRS" ∈ s))) in H.
  vm_compute in H. discriminate.
Defined.

